(** * Conversation history store and response helpers

    A shallow embedding of [backend/utils.py] and of the
    [CosmosConversationClient] class of
    [backend/history/comosdbservice-comments.py], with the properties of
    the specification proved about it.

    Python values are embedded as the inductive [value]; a [dict] is an
    association list in insertion order.  Functions that can raise return
    a [result]; the methods of [CosmosConversationClient] run in a state
    and exception monad over a [world] that holds the container, the wall
    clock, the UUID source and the log of the calls made to the
    container. *)

From Stdlib Require Import ZArith NArith Ascii String List Lia.
From Stdlib Require Import Numbers.DecimalString.
From stdpp Require Import base option list strings gmap fin_maps.

Import ListNotations.
Local Open Scope string_scope.
Local Open Scope list_scope.

(** ** Python values *)

#[local] Set Warnings "-register-all".

Inductive value : Type :=
| VNone
| VBool (b : bool)
| VInt (z : Z)
| VStr (s : string)
| VList (l : list value)
| VDict (d : list (string * value)).

(** Exceptions, by class name. *)
Inductive exn : Type :=
| KeyError (k : string)
| TypeError
| AttributeError
| IndexError
| CosmosResourceNotFoundError
| CosmosHttpResponseError
| RequestException
| JSONDecodeError.

Inductive result (A : Type) : Type :=
| Ok (a : A)
| Raise (e : exn).
Arguments Ok {A} a.
Arguments Raise {A} e.

(** [bool(v)], as used by [if v:] and [if not v:]. *)
Definition truthy (v : value) : bool :=
  match v with
  | VNone => false
  | VBool b => b
  | VInt z => negb (Z.eqb z 0)
  | VStr s => negb (String.eqb s EmptyString)
  | VList l => match l with [] => false | _ :: _ => true end
  | VDict d => match d with [] => false | _ :: _ => true end
  end.

(** *** Dictionaries *)

Fixpoint dict_get (k : string) (d : list (string * value)) : option value :=
  match d with
  | [] => None
  | (k', v) :: d' => if String.eqb k k' then Some v else dict_get k d'
  end.

(** [d[k] = v]: the entry is replaced where it stands, or appended. *)
Fixpoint dict_set (k : string) (v : value) (d : list (string * value))
  : list (string * value) :=
  match d with
  | [] => [(k, v)]
  | (k', v') :: d' =>
      if String.eqb k k' then (k', v) :: d' else (k', v') :: dict_set k v d'
  end.

Definition dict_keys (d : list (string * value)) : list string := map fst d.

(** [o[k]] for a string key [k]. *)
Definition subscript (o : value) (k : string) : result value :=
  match o with
  | VDict d => match dict_get k d with Some v => Ok v | None => Raise (KeyError k) end
  | _ => Raise TypeError
  end.

(** [o.get(k)]: only a dict has the method. *)
Definition py_get (o : value) (k : string) : result value :=
  match o with
  | VDict d => match dict_get k d with Some v => Ok v | None => Ok VNone end
  | _ => Raise AttributeError
  end.

(** [o[k] = v] for a string key [k]. *)
Definition setitem (o : value) (k : string) (v : value) : result value :=
  match o with
  | VDict d => Ok (VDict (dict_set k v d))
  | _ => Raise TypeError
  end.

Fixpoint chars (s : string) : list value :=
  match s with
  | EmptyString => []
  | String c s' => VStr (String c EmptyString) :: chars s'
  end.

(** The elements [for m in o] goes through. *)
Definition py_iter (o : value) : result (list value) :=
  match o with
  | VList l => Ok l
  | VDict d => Ok (map (fun kv => VStr (fst kv)) d)
  | VStr s => Ok (chars s)
  | _ => Raise TypeError
  end.

(** [v == "..."] against a string literal. *)
Definition eq_str (v : value) (s : string) : bool :=
  match v with
  | VStr s' => String.eqb s' s
  | _ => false
  end.

(** [str(z)] for an [int]. *)
Definition str_int (z : Z) : string := NilZero.string_of_int (Z.to_int z).

(** *** Strings: [in], [split] and [join] for a one-character separator *)

Fixpoint contains (sep : ascii) (s : string) : bool :=
  match s with
  | EmptyString => false
  | String c s' => if Ascii.eqb c sep then true else contains sep s'
  end.

Fixpoint split (sep : ascii) (s : string) : list string :=
  match s with
  | EmptyString => [EmptyString]
  | String c s' =>
      if Ascii.eqb c sep then EmptyString :: split sep s'
      else match split sep s' with
           | [] => [String c EmptyString]
           | h :: t => String c h :: t
           end
  end.

Fixpoint join (sep : ascii) (l : list string) : string :=
  match l with
  | [] => EmptyString
  | [x] => x
  | x :: l' => x +:+ String sep (join sep l')
  end.

(** ** [backend/utils.py] *)

Definition parse_multi_columns (columns : string) : list string :=
  if contains "|" columns then split "|" columns else split "," columns.

(** ** Time stamps and UUIDs *)

(** A naive [datetime], as [datetime.utcnow()] returns it. *)
Record datetime : Type := Datetime {
  year : N; month : N; day : N;
  hour : N; minute : N; second : N; microsecond : N }.

Fixpoint zeros (n : nat) : string :=
  match n with
  | O => EmptyString
  | S n' => String "0" (zeros n')
  end.

(** [str(n).zfill(width)] *)
Definition zfill (width : nat) (n : N) : string :=
  let s := NilZero.string_of_uint (N.to_uint n) in
  zeros (width - String.length s) +:+ s.

(** [datetime.isoformat()]: the fraction is printed only when it is not 0. *)
Definition isoformat (t : datetime) : string :=
  zfill 4 (year t) +:+ "-" +:+ zfill 2 (month t) +:+ "-" +:+ zfill 2 (day t)
  +:+ "T" +:+ zfill 2 (hour t) +:+ ":" +:+ zfill 2 (minute t) +:+ ":"
  +:+ zfill 2 (second t)
  +:+ (if N.eqb (microsecond t) 0 then EmptyString else "." +:+ zfill 6 (microsecond t)).

Definition hex_digit (n : N) : ascii :=
  match n with
  | 0%N => "0" | 1%N => "1" | 2%N => "2" | 3%N => "3"
  | 4%N => "4" | 5%N => "5" | 6%N => "6" | 7%N => "7"
  | 8%N => "8" | 9%N => "9" | 10%N => "a" | 11%N => "b"
  | 12%N => "c" | 13%N => "d" | 14%N => "e" | _ => "f"
  end%char.

(** The [n] lowest hexadecimal digits of [x], most significant first. *)
Fixpoint hex (n : nat) (x : N) : string :=
  match n with
  | O => EmptyString
  | S n' => hex n' (N.div x 16) +:+ String (hex_digit (N.modulo x 16)) EmptyString
  end.

(** [str(u)] for a [uuid.UUID] whose 128-bit integer is [u]. *)
Definition uuid_str (u : N) : string :=
  let h := hex 32 u in
  substring 0 8 h +:+ "-" +:+ substring 8 4 h +:+ "-" +:+ substring 12 4 h
  +:+ "-" +:+ substring 16 4 h +:+ "-" +:+ substring 20 12 h.

(** ** The container client *)

(** The calls a [ContainerProxy] receives, with their arguments. *)
Inductive call : Type :=
| UpsertItem (body : value)
| ReadItem (item partition_key : value)
| DeleteItem (item partition_key : value)
| QueryItems (query : string) (parameters : value).

(** The container is an object handed to the class: any state type [C]
    with the four operations.  [query_items] stands for the whole
    asynchronous iteration over the result. *)
Class ContainerClient (C : Type) : Type := {
  upsert_item : value -> C -> result value * C;
  read_item : value -> value -> C -> result value * C;
  delete_item : value -> value -> C -> result value * C;
  query_items : string -> value -> C -> result (list value) * C }.

(** What a method of the class runs in: the container, the clock read by
    [datetime.utcnow()], the source read by [uuid.uuid4()], and the log of
    the calls made so far. *)
Record world (C : Type) : Type := World {
  container : C;
  clock : nat -> datetime;
  ticks : nat;
  uuid_source : nat -> N;
  drawn : nat;
  calls : list call }.
Arguments World {C}.
Arguments container {C}.
Arguments clock {C}.
Arguments ticks {C}.
Arguments uuid_source {C}.
Arguments drawn {C}.
Arguments calls {C}.

Definition M (C A : Type) : Type := world C -> result A * world C.

Definition ret {C A} (a : A) : M C A := fun w => (Ok a, w).

Definition bind {C A B} (m : M C A) (k : A -> M C B) : M C B :=
  fun w => match m w with
           | (Ok a, w') => k a w'
           | (Raise e, w') => (Raise e, w')
           end.

Definition lift {C A} (r : result A) : M C A := fun w => (r, w).

Declare Scope py_scope.
Delimit Scope py_scope with py.
Notation "x <- c1 ;; c2" := (bind c1 (fun x => c2))
  (at level 100, c1 at next level, right associativity) : py_scope.

(** [datetime.utcnow()] *)
Definition utcnow {C} : M C datetime :=
  fun w => (Ok (clock w (ticks w)),
            World (container w) (clock w) (S (ticks w))
                  (uuid_source w) (drawn w) (calls w)).

(** [uuid.uuid4()] *)
Definition uuid4 {C} : M C N :=
  fun w => (Ok (uuid_source w (drawn w)),
            World (container w) (clock w) (ticks w)
                  (uuid_source w) (S (drawn w)) (calls w)).

(** One awaited call on [self.container_client], logged before it runs. *)
Definition client_call {C A} (c : call) (op : C -> result A * C) : M C A :=
  fun w => let (r, s') := op (container w) in
           (r, World s' (clock w) (ticks w) (uuid_source w) (drawn w)
                     (calls w ++ [c])).

(** ** [backend/history/comosdbservice-comments.py] *)

Record CosmosConversationClient : Type := {
  enable_message_feedback : bool }.

Section Cosmos.
Context {C : Type} `{ContainerClient C}.
Variable self : CosmosConversationClient.
Local Open Scope py_scope.

Definition create_conversation (user_id title : value) : M C value :=
  u <- uuid4 ;;
  createdAt <- utcnow ;;
  updatedAt <- utcnow ;;
  let conversation := VDict [
    ("id", VStr (uuid_str u));
    ("type", VStr "conversation");
    ("createdAt", VStr (isoformat createdAt));
    ("updatedAt", VStr (isoformat updatedAt));
    ("userId", user_id);
    ("title", title) ] in
  resp <- client_call (UpsertItem conversation) (upsert_item conversation) ;;
  if truthy resp then ret resp else ret (VBool false).

Definition upsert_conversation (conversation : value) : M C value :=
  resp <- client_call (UpsertItem conversation) (upsert_item conversation) ;;
  if truthy resp then ret resp else ret (VBool false).

Definition delete_conversation (user_id conversation_id : value) : M C value :=
  conversation <- client_call (ReadItem conversation_id user_id)
                              (read_item conversation_id user_id) ;;
  if truthy conversation then
    resp <- client_call (DeleteItem conversation_id user_id)
                        (delete_item conversation_id user_id) ;;
    ret resp
  else ret (VBool true).

Definition get_messages_query : string :=
  "SELECT * FROM c WHERE c.conversationId = @conversationId AND c.type='message' AND c.userId = @userId ORDER BY c.timestamp ASC".

Definition get_messages (user_id conversation_id : value) : M C value :=
  let parameters := VList [
    VDict [("name", VStr "@conversationId"); ("value", conversation_id)];
    VDict [("name", VStr "@userId"); ("value", user_id)] ] in
  let query := get_messages_query in
  messages <- client_call (QueryItems query parameters)
                          (query_items query parameters) ;;
  ret (VList messages).

(** The [for message in messages] loop of [delete_messages]. *)
Fixpoint delete_each (user_id : value) (messages response_list : list value)
  : M C (list value) :=
  match messages with
  | [] => ret response_list
  | message :: rest =>
      item <- lift (subscript message "id") ;;
      resp <- client_call (DeleteItem item user_id) (delete_item item user_id) ;;
      delete_each user_id rest (response_list ++ [resp])
  end.

Definition delete_messages (conversation_id user_id : value) : M C value :=
  messages <- get_messages user_id conversation_id ;;
  let response_list := [] in
  if truthy messages then
    items <- lift (py_iter messages) ;;
    response_list <- delete_each user_id items response_list ;;
    ret (VList response_list)
  else ret VNone.

(** [sort_order] defaults to ['DESC'] and [offset] to [0]. *)
Definition get_conversations (user_id : value) (limit : option Z)
    (sort_order : string) (offset : Z) : M C value :=
  let parameters := VList [
    VDict [("name", VStr "@userId"); ("value", user_id)] ] in
  let query :=
    "SELECT * FROM c where c.userId = @userId and c.type='conversation' order by c.updatedAt "
    +:+ sort_order in
  let query :=
    match limit with
    | Some limit => query +:+ " offset " +:+ str_int offset +:+ " limit " +:+ str_int limit
    | None => query
    end in
  conversations <- client_call (QueryItems query parameters)
                               (query_items query parameters) ;;
  ret (VList conversations).

Definition get_conversation_query : string :=
  "SELECT * FROM c where c.id = @conversationId and c.type='conversation' and c.userId = @userId".

Definition get_conversation (user_id conversation_id : value) : M C value :=
  let parameters := VList [
    VDict [("name", VStr "@conversationId"); ("value", conversation_id)];
    VDict [("name", VStr "@userId"); ("value", user_id)] ] in
  let query := get_conversation_query in
  conversations <- client_call (QueryItems query parameters)
                               (query_items query parameters) ;;
  match conversations with
  | [] => ret VNone
  | c :: _ => ret c
  end.

(** The [message] dict of [create_message], with the optional
    [feedback] entry. *)
Definition message_document (uuid conversation_id user_id role content : value)
    (createdAt updatedAt : datetime) : list (string * value) :=
  let message := [
    ("id", uuid);
    ("type", VStr "message");
    ("userId", user_id);
    ("createdAt", VStr (isoformat createdAt));
    ("updatedAt", VStr (isoformat updatedAt));
    ("conversationId", conversation_id);
    ("role", role);
    ("content", content) ] in
  if enable_message_feedback self
  then dict_set "feedback" (VStr EmptyString) message else message.

Definition create_message (uuid conversation_id user_id input_message : value)
  : M C value :=
  createdAt <- utcnow ;;
  updatedAt <- utcnow ;;
  role <- lift (subscript input_message "role") ;;
  content <- lift (subscript input_message "content") ;;
  let message :=
    VDict (message_document uuid conversation_id user_id role content
                            createdAt updatedAt) in
  resp <- client_call (UpsertItem message) (upsert_item message) ;;
  if truthy resp then
    conversation <- get_conversation user_id conversation_id ;;
    if negb (truthy conversation) then ret (VStr "Conversation not found")
    else
      createdAt' <- lift (subscript message "createdAt") ;;
      conversation <- lift (setitem conversation "updatedAt" createdAt') ;;
      _ <- upsert_conversation conversation ;;
      ret resp
  else ret (VBool false).

Definition update_message_feedback (user_id message_id feedback : value)
  : M C value :=
  message <- client_call (ReadItem message_id user_id)
                         (read_item message_id user_id) ;;
  if truthy message then
    message <- lift (setitem message "feedback" feedback) ;;
    resp <- client_call (UpsertItem message) (upsert_item message) ;;
    ret resp
  else ret (VBool false).
End Cosmos.

(** ** [backend/utils.py], continued *)

(** What [requests.get] returns: [r.status_code], [r.text] and the outcome
    of [r.json()]. *)
Record response : Type := Response {
  status_code : Z;
  text : string;
  json : result value }.

(** [k in o] for a string [k]. *)
Definition py_in (k : string) (o : value) : result bool :=
  match o with
  | VDict d => Ok (match dict_get k d with Some _ => true | None => false end)
  | VList l => Ok (existsb (fun v => eq_str v k) l)
  | VStr s => Ok (match index 0 k s with Some _ => true | None => false end)
  | _ => Raise TypeError
  end.

(** [o.extend(data)]: only a list has the method; [data] is iterated. *)
Definition extend (o data : value) : result value :=
  match o with
  | VList l => match py_iter data with
               | Ok items => Ok (VList (l ++ items))
               | Raise e => Raise e
               end
  | _ => Raise AttributeError
  end.

Definition graph_endpoint : string :=
  "https://graph.microsoft.com/v1.0/me/transitiveMemberOf?$select=id".

Section Directory.
(** [requests.get(endpoint, headers=headers)] *)
Variable requests_get : value -> value -> result response.

(** The body of the [try] once the request has returned [r]; [rec] is the
    recursive call on the next link, [None] when it does not return. *)
Definition fetch_page (rec : value -> option value) (r : response)
  : option (result value) :=
  if negb (Z.eqb (status_code r) 200) then Some (Ok (VList []))
  else
    match json r with
    | Raise e => Some (Raise e)
    | Ok r =>
        match py_in "@odata.nextLink" r with
        | Raise e => Some (Raise e)
        | Ok true =>
            match subscript r "@odata.nextLink" with
            | Raise e => Some (Raise e)
            | Ok link =>
                match rec link with
                | None => None
                | Some nextLinkData =>
                    match subscript r "value" with
                    | Raise e => Some (Raise e)
                    | Ok v => Some (extend v nextLinkData)
                    end
                end
            end
        | Ok false => Some (subscript r "value")
        end
    end.

(** [nextLink] defaults to [None].  The recursion follows the links the
    directory serves, so it is bounded by [fuel]: [None] is returned when
    [fuel] calls did not reach a last page. *)
Fixpoint fetchUserGroups (fuel : nat) (userToken : string) (nextLink : value)
  : option value :=
  match fuel with
  | O => None
  | S fuel' =>
      let endpoint := if truthy nextLink then nextLink else VStr graph_endpoint in
      let headers := VDict [("Authorization", VStr ("bearer " +:+ userToken))] in
      match requests_get endpoint headers with
      | Raise _ => Some (VList [])
      | Ok r =>
          match fetch_page (fetchUserGroups fuel' userToken) r with
          | None => None
          | Some (Ok v) => Some v
          | Some (Raise _) => Some (VList [])
          end
      end
  end.
End Directory.

(** The chat-completion object of the provider, with the attributes the
    formatter reads.  [context = None] is a message without the attribute
    ([hasattr(message, "context")] is false). *)
Module ChatCompletion.
Record message_t : Type := Message {
  content : value;
  context : option value }.
Record choice : Type := Choice {
  message : option message_t }.
Record t : Type := Make {
  id : value;
  model : value;
  created : value;
  object : value;
  choices : list choice }.
End ChatCompletion.

Definition tool_entry (content : value) : value :=
  VDict [("role", VStr "tool"); ("content", content)].

Definition assistant_entry (content : value) : value :=
  VDict [("role", VStr "assistant"); ("content", content)].

(** The [for m in message.context["messages"]] loop; [messages] is the list
    [response_obj["choices"][0]["messages"]] built so far. *)
Fixpoint append_tool_messages (ms messages : list value) : result (list value) :=
  match ms with
  | [] => Ok messages
  | m :: ms' =>
      match subscript m "role" with
      | Raise e => Raise e
      | Ok role =>
          if eq_str role "tool" then
            match subscript m "content" with
            | Raise e => Raise e
            | Ok c => append_tool_messages ms' (messages ++ [tool_entry c])
            end
          else append_tool_messages ms' messages
      end
  end.

Section Formatter.
(** [json.dumps] *)
Variable json_dumps : value -> string.

(** The entries appended for [message.context], before the assistant's. *)
Definition context_messages (m : ChatCompletion.message_t) : result (list value) :=
  match ChatCompletion.context m with
  | None => Ok []
  | Some context =>
      match py_get context "messages" with
      | Raise e => Raise e
      | Ok found =>
          if truthy found then
            match subscript context "messages" with
            | Raise e => Raise e
            | Ok ms => match py_iter ms with
                       | Raise e => Raise e
                       | Ok ms => append_tool_messages ms []
                       end
            end
          else Ok [tool_entry (VStr (json_dumps context))]
      end
  end.

(** [message_uuid] defaults to [None]. *)
Definition format_non_streaming_response (chatCompletion : ChatCompletion.t)
    (history_metadata message_uuid : value) : result value :=
  let response_obj (messages : list value) := VDict [
    ("id", if truthy message_uuid then message_uuid
           else ChatCompletion.id chatCompletion);
    ("model", ChatCompletion.model chatCompletion);
    ("created", ChatCompletion.created chatCompletion);
    ("object", ChatCompletion.object chatCompletion);
    ("choices", VList [VDict [("messages", VList messages)]]);
    ("history_metadata", history_metadata) ] in
  match ChatCompletion.choices chatCompletion with
  | [] => Ok (VDict [])
  | choice0 :: _ =>
      match ChatCompletion.message choice0 with
      | None => Ok (VDict [])
      | Some message =>
          match context_messages message with
          | Raise e => Raise e
          | Ok messages =>
              Ok (response_obj
                    (messages ++ [assistant_entry (ChatCompletion.content message)]))
          end
      end
  end.
End Formatter.

(** ** A container held in memory

    Documents are stored under (partition key, id), the partition key being
    the document's [userId].  Point reads and deletes of a missing document
    raise, as the Cosmos client does; the query engine is a parameter. *)

Section Memory.
Variable engine : string -> value -> gmap (string * string) value -> result (list value).

Definition mem_upsert (body : value) (st : gmap (string * string) value)
  : result value * gmap (string * string) value :=
  match subscript body "userId", subscript body "id" with
  | Ok (VStr u), Ok (VStr i) => (Ok body, <[(u, i) := body]> st)
  | _, _ => (Raise CosmosHttpResponseError, st)
  end.

Definition mem_read (item partition_key : value) (st : gmap (string * string) value)
  : result value * gmap (string * string) value :=
  match partition_key, item with
  | VStr u, VStr i =>
      match st !! (u, i) with
      | Some doc => (Ok doc, st)
      | None => (Raise CosmosResourceNotFoundError, st)
      end
  | _, _ => (Raise CosmosHttpResponseError, st)
  end.

Definition mem_delete (item partition_key : value) (st : gmap (string * string) value)
  : result value * gmap (string * string) value :=
  match partition_key, item with
  | VStr u, VStr i =>
      match st !! (u, i) with
      | Some _ => (Ok VNone, delete (u, i) st)
      | None => (Raise CosmosResourceNotFoundError, st)
      end
  | _, _ => (Raise CosmosHttpResponseError, st)
  end.

Definition mem_query (query : string) (parameters : value)
    (st : gmap (string * string) value)
  : result (list value) * gmap (string * string) value :=
  (engine query parameters st, st).

Definition memory_client : ContainerClient (gmap (string * string) value) :=
  {| upsert_item := mem_upsert;
     read_item := mem_read;
     delete_item := mem_delete;
     query_items := mem_query |}.
End Memory.

(** A message document of conversation [conversation_id]. *)
Definition is_message_of (conversation_id : value) (doc : value) : Prop :=
  subscript doc "type" = Ok (VStr "message") /\
  subscript doc "conversationId" = Ok conversation_id.

(** *** An engine for the two point queries

    It answers the queries of [get_conversation] and [get_messages] by
    filtering the stored documents on the bound parameters, and refuses any
    other query. *)

Fixpoint parameter (name : string) (parameters : list value) : option value :=
  match parameters with
  | [] => None
  | p :: ps =>
      match subscript p "name", subscript p "value" with
      | Ok n, Ok v => if eq_str n name then Some v else parameter name ps
      | _, _ => parameter name ps
      end
  end.

Definition field_is (k : string) (p : option value) (doc : value) : bool :=
  match p, subscript doc k with
  | Some (VStr s), Ok v => eq_str v s
  | _, _ => false
  end.

Definition point_engine (query : string) (parameters : value)
    (st : gmap (string * string) value) : result (list value) :=
  match parameters with
  | VList ps =>
      let docs := map snd (map_to_list st) in
      let by_user := field_is "userId" (parameter "@userId" ps) in
      let cid := parameter "@conversationId" ps in
      if String.eqb query get_conversation_query then
        Ok (filter (fun d => by_user d && field_is "id" cid d
                             && field_is "type" (Some (VStr "conversation")) d) docs)
      else if String.eqb query get_messages_query then
        Ok (filter (fun d => by_user d && field_is "conversationId" cid d
                             && field_is "type" (Some (VStr "message")) d) docs)
      else Raise CosmosHttpResponseError
  | _ => Raise CosmosHttpResponseError
  end.

(** ** Shapes of the data served by the providers *)




(** ** Sample data *)

Definition sample_clock (n : nat) : datetime :=
  Datetime 2024 1 2 3 4 (N.of_nat n) 0.

Definition sample_conversation : value :=
  VDict [("id", VStr "c1"); ("type", VStr "conversation");
         ("createdAt", VStr "2024-01-01T00:00:00");
         ("updatedAt", VStr "2024-01-01T00:00:00");
         ("userId", VStr "u1"); ("title", VStr "hello")].

Definition sample_message : value :=
  VDict [("id", VStr "m0"); ("type", VStr "message"); ("userId", VStr "u1");
         ("createdAt", VStr "2024-01-01T00:00:00");
         ("updatedAt", VStr "2024-01-01T00:00:00");
         ("conversationId", VStr "c1");
         ("role", VStr "user"); ("content", VStr "hi")].

Definition sample_store : gmap (string * string) value :=
  <[("u1", "m0") := sample_message]> (<[("u1", "c1") := sample_conversation]> ∅).

Definition sample_world : world (gmap (string * string) value) :=
  World sample_store sample_clock 0 N.of_nat 0 [].

Definition sample_self : CosmosConversationClient :=
  {| enable_message_feedback := true |}.

Definition sample_input : value :=
  VDict [("role", VStr "user"); ("content", VStr "and then?")].


(** A directory that is down. *)
Definition failing_directory (endpoint headers : value) : result response :=
  Ok (Response 503 "Service Unavailable" (Raise JSONDecodeError)).

(** A container whose upsert answers with an empty response. *)
Definition silent_client : ContainerClient unit :=
  {| upsert_item := fun _ s => (Ok (VDict []), s);
     read_item := fun _ _ s => (Raise CosmosResourceNotFoundError, s);
     delete_item := fun _ _ s => (Raise CosmosResourceNotFoundError, s);
     query_items := fun _ _ s => (Ok [], s) |}.

Definition silent_world : world unit :=
  World tt sample_clock 0 N.of_nat 0 [].

Definition quote : string := String (ascii_of_nat 34) EmptyString.

(** [json.dumps] on values whose strings need no escape. *)
Fixpoint sample_json_dumps (v : value) : string :=
  match v with
  | VNone => "null"
  | VBool true => "true"
  | VBool false => "false"
  | VInt z => str_int z
  | VStr s => quote +:+ s +:+ quote
  | VList l =>
      "[" +:+ (fix items (l : list value) : string :=
                 match l with
                 | [] => EmptyString
                 | x :: l' =>
                     match l' with
                     | [] => sample_json_dumps x
                     | _ :: _ => sample_json_dumps x +:+ ", " +:+ items l'
                     end
                 end) l +:+ "]"
  | VDict d =>
      "{" +:+ (fix entries (d : list (string * value)) : string :=
                 match d with
                 | [] => EmptyString
                 | (k, x) :: d' =>
                     match d' with
                     | [] => quote +:+ k +:+ quote +:+ ": " +:+ sample_json_dumps x
                     | _ :: _ => quote +:+ k +:+ quote +:+ ": " +:+ sample_json_dumps x
                                 +:+ ", " +:+ entries d'
                     end
                 end) d +:+ "}"
  end.

Definition sample_completion : ChatCompletion.t :=
  ChatCompletion.Make (VStr "chatcmpl-1") (VStr "gpt-4") (VInt 1700000000)
    (VStr "chat.completion")
    [ChatCompletion.Choice (Some (ChatCompletion.Message (VStr "Hello.")
       (Some (VDict [("messages",
                      VList [VDict [("role", VStr "tool"); ("content", VStr "{}")];
                             VDict [("role", VStr "user"); ("content", VStr "x")];
                             VDict [("role", VStr "tool"); ("content", VStr "[]")]])]))))].

(** ** [backend/utils.py]: the streaming formatter, the filter string and
    the NDJSON stream *)

(** A chunk of a streamed completion, with the attributes the formatter
    reads.  [context = None] is a delta without the attribute. *)
Module ChatCompletionChunk.
Record delta_t : Type := Delta {
  role : value;
  content : value;
  context : option value }.
Record choice : Type := Choice {
  delta : option delta_t }.
Record t : Type := Make {
  id : value;
  model : value;
  created : value;
  object : value;
  choices : list choice }.
End ChatCompletionChunk.

(** The [for m in delta.context["messages"]] loop: it returns from the
    function at the first entry of role ["tool"]. *)
Fixpoint first_tool_message (ms : list value) : result (option value) :=
  match ms with
  | [] => Ok None
  | m :: ms' =>
      match subscript m "role" with
      | Raise e => Raise e
      | Ok role =>
          if eq_str role "tool" then
            match subscript m "content" with
            | Raise e => Raise e
            | Ok c => Ok (Some (tool_entry c))
            end
          else first_tool_message ms'
      end
  end.

(** The first [if] under [if delta:]: the message object it returns with,
    if any. *)
Definition delta_tool_message (delta : ChatCompletionChunk.delta_t)
  : result (option value) :=
  match ChatCompletionChunk.context delta with
  | None => Ok None
  | Some context =>
      match py_get context "messages" with
      | Raise e => Raise e
      | Ok found =>
          if truthy found then
            match subscript context "messages" with
            | Raise e => Raise e
            | Ok ms => match py_iter ms with
                       | Raise e => Raise e
                       | Ok ms => first_tool_message ms
                       end
            end
          else Ok None
      end
  end.

(** [message_uuid] defaults to [None]. *)
Definition format_stream_response (chatCompletionChunk : ChatCompletionChunk.t)
    (history_metadata message_uuid : value) : result value :=
  let response_obj (messages : list value) := VDict [
    ("id", if truthy message_uuid then message_uuid
           else ChatCompletionChunk.id chatCompletionChunk);
    ("model", ChatCompletionChunk.model chatCompletionChunk);
    ("created", ChatCompletionChunk.created chatCompletionChunk);
    ("object", ChatCompletionChunk.object chatCompletionChunk);
    ("choices", VList [VDict [("messages", VList messages)]]);
    ("history_metadata", history_metadata) ] in
  match ChatCompletionChunk.choices chatCompletionChunk with
  | [] => Ok (VDict [])
  | choice0 :: _ =>
      match ChatCompletionChunk.delta choice0 with
      | None => Ok (VDict [])
      | Some delta =>
          match delta_tool_message delta with
          | Raise e => Raise e
          | Ok (Some messageObj) => Ok (response_obj [messageObj])
          | Ok None =>
              match eq_str (ChatCompletionChunk.role delta) "assistant",
                    ChatCompletionChunk.context delta with
              | true, Some context =>
                  Ok (response_obj
                        [VDict [("role", VStr "assistant"); ("context", context)]])
              | _, _ =>
                  if truthy (ChatCompletionChunk.content delta) then
                    Ok (response_obj
                          [assistant_entry (ChatCompletionChunk.content delta)])
                  else Ok (VDict [])
              end
          end
      end
  end.

(** [[obj['id'] for obj in userGroups]] *)
Fixpoint group_ids (userGroups : list value) : result (list value) :=
  match userGroups with
  | [] => Ok []
  | obj :: rest =>
      match subscript obj "id" with
      | Raise e => Raise e
      | Ok i => match group_ids rest with
                | Raise e => Raise e
                | Ok ids => Ok (i :: ids)
                end
      end
  end.

(** [sep.join(items)]: every item has to be a [str]. *)
Fixpoint str_join (sep : string) (items : list value) : result string :=
  match items with
  | [] => Ok EmptyString
  | VStr s :: rest =>
      match rest with
      | [] => Ok s
      | _ :: _ => match str_join sep rest with
                  | Raise e => Raise e
                  | Ok t => Ok (s +:+ sep +:+ t)
                  end
      end
  | _ :: _ => Raise TypeError
  end.


Section FilterString.
Variable requests_get : value -> value -> result response.
(** [AZURE_SEARCH_PERMITTED_GROUPS_COLUMN], [None] when the variable is not
    set. *)
Variable AZURE_SEARCH_PERMITTED_GROUPS_COLUMN : option string.

(** What the f-string prints for the column. *)
Definition column_text : string :=
  match AZURE_SEARCH_PERMITTED_GROUPS_COLUMN with
  | Some c => c
  | None => "None"
  end.

(** [None] when [fetchUserGroups] does not return within [fuel] calls. *)
Definition generateFilterString (fuel : nat) (userToken : string)
  : option (result string) :=
  match fetchUserGroups requests_get fuel userToken VNone with
  | None => None
  | Some userGroups =>
      Some (match py_iter userGroups with
            | Raise e => Raise e
            | Ok objs =>
                match group_ids objs with
                | Raise e => Raise e
                | Ok ids =>
                    match str_join ", " ids with
                    | Raise e => Raise e
                    | Ok group_ids =>
                        Ok (column_text +:+ "/any(g:search.in(g, '" +:+ group_ids
                            +:+ "'))")
                    end
                end
            end)
  end.
End FilterString.

Definition newline : string := String (ascii_of_nat 10) EmptyString.

Section Ndjson.
(** [json.dumps], with or without the encoder: every [value] is
    serializable as it is. *)
Variable json_dumps : value -> string.
(** [str(error)] *)
Variable str_error : exn -> string.

(** The strings the generator yields.  The stream [r] is the list of what
    each step of the iteration gives: an event, or the exception it
    raises. *)
Fixpoint format_as_ndjson (r : list (result value)) : list string :=
  match r with
  | [] => []
  | Ok event :: rest => (json_dumps event +:+ newline) :: format_as_ndjson rest
  | Raise error :: _ => [json_dumps (VDict [("error", VStr (str_error error))])]
  end.
End Ndjson.

(** ** [CosmosConversationClient.ensure] *)

(** The reads [ensure] awaits. *)
Inductive probe : Type :=
| DatabaseRead
| ContainerRead.

Section Ensure.
(** Whether [self.cosmosdb_client], [self.database_client] and
    [self.container_client] are set. *)
Variables cosmosdb_client database_client container_client : bool.
Variables cosmosdb_endpoint database_name container_name : string.
(** The outcome of [self.database_client.read()] and of
    [self.container_client.read()]. *)
Variables database_read container_read : result value.

(** The pair [ensure] returns, and the reads it has awaited. *)
Definition ensure : (bool * string) * list probe :=
  if negb cosmosdb_client || negb database_client || negb container_client then
    ((false, "CosmosDB client not initialized correctly"), [])
  else
    match database_read with
    | Raise _ =>
        ((false, "CosmosDB database " +:+ database_name +:+ " on account "
                 +:+ cosmosdb_endpoint +:+ " not found"), [DatabaseRead])
    | Ok database_info =>
        match container_read with
        | Raise _ =>
            ((false, "CosmosDB container " +:+ container_name +:+ " not found"),
             [DatabaseRead; ContainerRead])
        | Ok container_info =>
            ((true, "CosmosDB client initialized successfully"),
             [DatabaseRead; ContainerRead])
        end
    end.
End Ensure.

(** ** Further shapes *)

(** The number of occurrences of [sep] in [s]. *)
Fixpoint count_char (sep : ascii) (s : string) : nat :=
  match s with
  | EmptyString => 0
  | String c s' => (if Ascii.eqb c sep then 1 else 0) + count_char sep s'
  end.

(** Whether [m["role"] == "tool"]. *)
Definition has_role_tool (m : value) : bool :=
  match subscript m "role" with
  | Ok role => eq_str role "tool"
  | Raise _ => false
  end.

(** The directory serves [pages] from [endpoint] on, each with a link to
    the next request, and the request after the last of them fails: it
    raises, or its status is not 200. *)
Fixpoint served_until_failure (requests_get : value -> value -> result response)
    (userToken : string) (endpoint : value) (pages : list (list value)) : Prop :=
  let headers := VDict [("Authorization", VStr ("bearer " +:+ userToken))] in
  match pages with
  | [] =>
      (exists e, requests_get endpoint headers = Raise e)
      \/ (exists r, requests_get endpoint headers = Ok r /\ status_code r <> 200%Z)
  | groups :: rest =>
      exists (txt : string) (body : list (string * value)) (link : value),
        requests_get endpoint headers = Ok (Response 200 txt (Ok (VDict body)))
        /\ dict_get "value" body = Some (VList groups)
        /\ dict_get "@odata.nextLink" body = Some link
        /\ truthy link = true
        /\ served_until_failure requests_get userToken link rest
  end.

(** ** More sample data *)

Definition sample_chunk : ChatCompletionChunk.t :=
  ChatCompletionChunk.Make (VStr "chatcmpl-1") (VStr "gpt-4") (VInt 1700000000)
    (VStr "chat.completion.chunk")
    [ChatCompletionChunk.Choice (Some (ChatCompletionChunk.Delta
       (VStr "assistant") VNone
       (Some (VDict [("messages",
                      VList [VDict [("role", VStr "user"); ("content", VStr "x")];
                             VDict [("role", VStr "tool"); ("content", VStr "{}")];
                             VDict [("role", VStr "tool"); ("content", VStr "[]")]])]))))].

Definition sample_str_error (e : exn) : string :=
  match e with
  | KeyError k => k
  | _ => "error"
  end.


(** A directory whose only group has no id. *)
Definition nameless_directory (endpoint headers : value) : result response :=
  Ok (Response 200 EmptyString
        (Ok (VDict [("value", VList [VDict [("name", VStr "g")]])]))).

(** ** Properties *)

Lemma dict_get_set_eq k v d : dict_get k (dict_set k v d) = Some v.
Proof.
  induction d as [|[k' v'] d IH]; simpl.
  - now rewrite String.eqb_refl.
  - destruct (String.eqb k k') eqn:E; simpl; rewrite E; auto.
Qed.

Lemma dict_get_set_ne k k' v d :
  k' <> k -> dict_get k' (dict_set k v d) = dict_get k' d.
Proof.
  intros Hne. induction d as [|[k0 v0] d IH]; simpl.
  - destruct (String.eqb k' k) eqn:E; auto.
    apply String.eqb_eq in E. congruence.
  - destruct (String.eqb k k0) eqn:E; simpl.
    + apply String.eqb_eq in E. subst k0.
      destruct (String.eqb k' k) eqn:E'; auto.
      apply String.eqb_eq in E'. congruence.
    + now rewrite IH.
Qed.


Section Split.
Variable sep : ascii.

Lemma split_nonempty s : split sep s <> [].
Proof.
  destruct s as [|c s]; simpl; [discriminate|].
  destruct (Ascii.eqb c sep); [discriminate|].
  destruct (split sep s); discriminate.
Qed.

Lemma join_cons x y l : join sep (x :: y :: l) = x +:+ String sep (join sep (y :: l)).
Proof. reflexivity. Qed.

Lemma join_split s : join sep (split sep s) = s.
Proof.
  induction s as [|c s IH]; simpl; [reflexivity|].
  destruct (Ascii.eqb c sep) eqn:E.
  - apply Ascii.eqb_eq in E. subst c.
    destruct (split sep s) as [|h t] eqn:Hs; [now apply split_nonempty in Hs|].
    rewrite join_cons, IH. reflexivity.
  - destruct (split sep s) as [|h t] eqn:Hs; [now apply split_nonempty in Hs|].
    destruct t as [|h' t]; simpl in *.
    + now rewrite IH.
    + now rewrite <- IH.
Qed.

Lemma split_segments_free s : Forall (fun seg => contains sep seg = false) (split sep s).
Proof.
  induction s as [|c s IH]; simpl.
  - constructor; [reflexivity|constructor].
  - destruct (Ascii.eqb c sep) eqn:E.
    + constructor; [reflexivity|exact IH].
    + destruct (split sep s) as [|h t] eqn:Hs.
      * constructor; [simpl; now rewrite E|constructor].
      * inversion IH; subst. constructor; [simpl; now rewrite E|assumption].
Qed.
End Split.

(** *** Running the monad *)

Ltac fields := cbn [container clock ticks uuid_source drawn calls fst snd].

Ltac run_monad :=
  unfold bind, ret, lift, utcnow, uuid4, client_call; fields.

Lemma client_call_calls {C A} (c : call) (op : C -> result A * C) (w : world C) :
  calls (snd (client_call c op w)) = calls w ++ [c].
Proof. unfold client_call. destruct (op (container w)). reflexivity. Qed.

(** ** The two queries *)

(** C5: the query of [get_conversations] selects on [c.userId = @userId]
    and [c.type='conversation'], orders by [c.updatedAt] in the given sort
    order, binds [@userId] to [user_id], and ends with the
    [offset .. limit ..] clause exactly when [limit] is not [None]. *)
Theorem get_conversations_query {C} `{ContainerClient C}
    (w : world C) (user_id : value) (limit : option Z)
    (sort_order : string) (offset : Z) :
  exists query,
    calls (snd (get_conversations user_id limit sort_order offset w)) =
      calls w ++ [QueryItems query
                    (VList [VDict [("name", VStr "@userId"); ("value", user_id)]])]
    /\ (limit = None ->
        query = "SELECT * FROM c where c.userId = @userId and c.type='conversation' order by c.updatedAt "
                +:+ sort_order)
    /\ (forall l, limit = Some l ->
        query = ("SELECT * FROM c where c.userId = @userId and c.type='conversation' order by c.updatedAt "
                 +:+ sort_order)
                +:+ " offset " +:+ str_int offset +:+ " limit " +:+ str_int l).
Proof.
  unfold get_conversations.
  match goal with
  | |- context [client_call (QueryItems ?q ?p) _] => exists q
  end.
  split.
  - unfold bind.
    match goal with
    | |- context [client_call ?c ?op w] =>
        pose proof (client_call_calls c op w) as Hc;
        destruct (client_call c op w) as [[conversations|e] w']
    end; exact Hc.
  - split.
    + intros ->. reflexivity.
    + intros l ->. reflexivity.
Qed.

Lemma get_conversations_query_witness :
  exists query,
    calls (snd (@get_conversations _ (memory_client point_engine)
                  (VStr "u1") (Some 25%Z) "DESC" 0%Z sample_world)) =
      [QueryItems query
         (VList [VDict [("name", VStr "@userId"); ("value", VStr "u1")]])]
    /\ query = "SELECT * FROM c where c.userId = @userId and c.type='conversation' order by c.updatedAt DESC offset 0 limit 25".
Proof.
  destruct (@get_conversations_query _ (memory_client point_engine) sample_world
              (VStr "u1") (Some 25%Z) "DESC" 0%Z) as (query & Hcalls & _ & Hlimit).
  exists query. split; [exact Hcalls|].
  rewrite (Hlimit 25%Z eq_refl). reflexivity.
Defined.

(** C6: the query of [get_messages] selects on
    [c.conversationId = @conversationId], [c.type='message'] and
    [c.userId = @userId], orders by [c.timestamp] ascending, and binds the
    two parameters to [conversation_id] and [user_id]. *)
Theorem get_messages_query_sent {C} `{ContainerClient C}
    (w : world C) (user_id conversation_id : value) :
  calls (snd (get_messages user_id conversation_id w)) =
    calls w ++ [QueryItems
      "SELECT * FROM c WHERE c.conversationId = @conversationId AND c.type='message' AND c.userId = @userId ORDER BY c.timestamp ASC"
      (VList [VDict [("name", VStr "@conversationId"); ("value", conversation_id)];
              VDict [("name", VStr "@userId"); ("value", user_id)]])].
Proof.
  unfold get_messages, bind.
  match goal with
  | |- context [client_call ?c ?op w] =>
      pose proof (client_call_calls c op w) as Hc;
      destruct (client_call c op w) as [[messages|e] w']
  end; exact Hc.
Qed.

(** ** Conversation documents *)






(** ** Column lists *)

(** C9: [parse_multi_columns] splits on ['|'] alone when the string has a
    ['|'] and on [','] otherwise; the result is never empty, no segment
    holds the separator, and joining the segments with the separator gives
    the input back (so commas inside ['|']-separated segments are kept). *)
Theorem parse_multi_columns_split (columns : string) :
  (contains "|" columns = true ->
     parse_multi_columns columns = split "|" columns
     /\ join "|" (parse_multi_columns columns) = columns
     /\ Forall (fun seg => contains "|" seg = false) (parse_multi_columns columns))
  /\ (contains "|" columns = false ->
     parse_multi_columns columns = split "," columns
     /\ join "," (parse_multi_columns columns) = columns
     /\ Forall (fun seg => contains "," seg = false) (parse_multi_columns columns))
  /\ parse_multi_columns columns <> [].
Proof.
  unfold parse_multi_columns.
  destruct (contains "|" columns) eqn:E.
  - split; [|split]; [| discriminate | apply split_nonempty].
    intros _. split; [reflexivity|]. split; [apply join_split|apply split_segments_free].
  - split; [|split]; [discriminate | | apply split_nonempty].
    intros _. split; [reflexivity|]. split; [apply join_split|apply split_segments_free].
Qed.

Lemma parse_multi_columns_split_witness :
  parse_multi_columns "a,b|c,,d|" = ["a,b"; "c,,d"; EmptyString]
  /\ join "|" (parse_multi_columns "a,b|c,,d|") = "a,b|c,,d|"
  /\ parse_multi_columns "a,b," = ["a"; "b"; EmptyString]
  /\ join "," (parse_multi_columns "a,b,") = "a,b,".
Proof.
  destruct (parse_multi_columns_split "a,b|c,,d|") as [Hp [_ _]].
  destruct (parse_multi_columns_split "a,b,") as [_ [Hc _]].
  destruct (Hp eq_refl) as [_ [Hj _]].
  destruct (Hc eq_refl) as [_ [Hj' _]].
  split; [reflexivity|]. split; [exact Hj|]. split; [reflexivity|exact Hj'].
Defined.

(** ** Messages and their conversation *)

Lemma message_document_createdAt self uuid conversation_id user_id role content t1 t2 :
  subscript
    (VDict (message_document self uuid conversation_id user_id role content t1 t2))
    "createdAt" = Ok (VStr (isoformat t1)).
Proof. unfold message_document. destruct (enable_message_feedback self); reflexivity. Qed.

Lemma message_document_truthy self uuid conversation_id user_id role content t1 t2 :
  truthy (VDict (message_document self uuid conversation_id user_id role content t1 t2))
  = true.
Proof. unfold message_document. destruct (enable_message_feedback self); reflexivity. Qed.



(** ** Behaviour on the container held in memory *)

Section MemoryContainer.
Variable engine :
  string -> value -> gmap (string * string) value -> result (list value).
Local Abbreviation client := (memory_client engine).

(** C10: when the parent conversation is not found, [create_message]
    returns ["Conversation not found"] and the message it has just
    upserted stays in the store: the only calls made are the upsert and
    the query. *)
Theorem create_message_not_rolled_back (self : CosmosConversationClient)
    (w : world (gmap (string * string) value))
    (uuid user_id : string) (conversation_id input_message role content : value) :
  let message :=
    VDict (message_document self (VStr uuid) conversation_id (VStr user_id)
             role content (clock w (ticks w)) (clock w (S (ticks w)))) in
  let parameters := VList [
    VDict [("name", VStr "@conversationId"); ("value", conversation_id)];
    VDict [("name", VStr "@userId"); ("value", VStr user_id)] ] in
  let run := @create_message _ client self (VStr uuid) conversation_id
               (VStr user_id) input_message w in
  subscript input_message "role" = Ok role ->
  subscript input_message "content" = Ok content ->
  engine get_conversation_query parameters
         (<[(user_id, uuid) := message]> (container w)) = Ok [] ->
  fst run = Ok (VStr "Conversation not found")
  /\ container (snd run) !! (user_id, uuid) = Some message
  /\ calls (snd run) =
       calls w ++ [UpsertItem message;
                   QueryItems get_conversation_query parameters].
Proof.
  intros message parameters run Hrole Hcontent Hq.
  assert (Hup : @upsert_item _ client message (container w)
                = (Ok message, <[(user_id, uuid) := message]> (container w))).
  { unfold message, message_document.
    destruct (enable_message_feedback self); reflexivity. }
  assert (Hrun : run =
    (Ok (VStr "Conversation not found"),
     World (<[(user_id, uuid) := message]> (container w)) (clock w)
           (S (S (ticks w))) (uuid_source w) (drawn w)
           ((calls w ++ [UpsertItem message])
              ++ [QueryItems get_conversation_query parameters]))).
  { unfold run, create_message, get_conversation.
    run_monad. rewrite Hrole, Hcontent.
    fold message. rewrite Hup. fields.
    rewrite (message_document_truthy self (VStr uuid) conversation_id
               (VStr user_id) role content (clock w (ticks w))
               (clock w (S (ticks w))) : truthy message = true).
    fold parameters. cbn [query_items client memory_client mem_query].
    fields. rewrite Hq. reflexivity. }
  rewrite Hrun. fields.
  split; [reflexivity|]. split; [apply lookup_insert_eq|].
  now rewrite <- app_assoc.
Qed.

(** *** Deleting *)



End MemoryContainer.

Lemma create_message_not_rolled_back_witness :
  let run := @create_message _ (memory_client point_engine) sample_self
               (VStr "m1") (VStr "c9") (VStr "u1") sample_input sample_world in
  fst run = Ok (VStr "Conversation not found")
  /\ exists message,
       container (snd run) !! ("u1", "m1") = Some message
       /\ is_message_of (VStr "c9") message.
Proof.
  destruct (create_message_not_rolled_back point_engine sample_self sample_world
              "m1" "u1" (VStr "c9") sample_input (VStr "user") (VStr "and then?"))
    as (Hr & Hm & _).
  - reflexivity.
  - reflexivity.
  - vm_compute. reflexivity.
  - split; [exact Hr|]. eexists. split; [exact Hm|]. split; reflexivity.
Defined.



(** ** Group memberships *)

Section DirectoryProofs.
Variable requests_get : value -> value -> result response.
Variable userToken : string.

End DirectoryProofs.



(** ** Failures *)

(** C8: [fetchUserGroups] returns the empty list when the request raises,
    answers with a status other than 200, or has a body that is not JSON;
    [upsert_conversation] and [create_conversation] return [False] when the
    response of the upsert is falsy. *)
Theorem failures_return_sentinels :
  (forall (requests_get : value -> value -> result response) (fuel : nat)
          (userToken : string) (nextLink : value),
      let endpoint := if truthy nextLink then nextLink else VStr graph_endpoint in
      let headers := VDict [("Authorization", VStr ("bearer " +:+ userToken))] in
      (exists e, requests_get endpoint headers = Raise e)
      \/ (exists r, requests_get endpoint headers = Ok r
                    /\ (status_code r <> 200%Z \/ exists e, json r = Raise e)) ->
      fetchUserGroups requests_get (S fuel) userToken nextLink = Some (VList []))
  /\ (forall (C : Type) (client : ContainerClient C) (w : world C)
             (conversation resp : value) (s : C),
        upsert_item conversation (container w) = (Ok resp, s) ->
        truthy resp = false ->
        fst (upsert_conversation conversation w) = Ok (VBool false))
  /\ (forall (C : Type) (client : ContainerClient C) (w : world C)
             (user_id title resp : value) (s : C),
        upsert_item
          (VDict [("id", VStr (uuid_str (uuid_source w (drawn w))));
                  ("type", VStr "conversation");
                  ("createdAt", VStr (isoformat (clock w (ticks w))));
                  ("updatedAt", VStr (isoformat (clock w (S (ticks w)))));
                  ("userId", user_id);
                  ("title", title)])
          (container w) = (Ok resp, s) ->
        truthy resp = false ->
        fst (create_conversation user_id title w) = Ok (VBool false)).
Proof.
  split; [|split].
  - intros requests_get fuel userToken nextLink endpoint headers Hfail.
    cbn [fetchUserGroups]. fold endpoint headers.
    destruct Hfail as [(e & ->)|(r & -> & Hr)]; [reflexivity|].
    unfold fetch_page.
    destruct (Z.eqb (status_code r) 200) eqn:E; [|reflexivity].
    destruct Hr as [Hs|(e & He)].
    + apply Z.eqb_eq in E. contradiction.
    + cbn [negb]. rewrite He. reflexivity.
  - intros C client w conversation resp s Hup Hresp.
    unfold upsert_conversation. run_monad. rewrite Hup, Hresp. reflexivity.
  - intros C client w user_id title resp s Hup Hresp.
    unfold create_conversation. run_monad. rewrite Hup, Hresp. reflexivity.
Qed.

Lemma failures_return_sentinels_witness :
  fetchUserGroups failing_directory 1 "token" VNone = Some (VList [])
  /\ fst (@upsert_conversation _ silent_client sample_conversation silent_world)
     = Ok (VBool false)
  /\ fst (@create_conversation _ silent_client (VStr "u1") (VStr "hello") silent_world)
     = Ok (VBool false).
Proof.
  destruct failures_return_sentinels as (Hfetch & Hupsert & Hcreate).
  split; [|split].
  - apply Hfetch. right. eexists. split; [reflexivity|]. left. discriminate.
  - apply (Hupsert unit silent_client silent_world sample_conversation (VDict []) tt);
      reflexivity.
  - apply (Hcreate unit silent_client silent_world (VStr "u1") (VStr "hello")
             (VDict []) tt); reflexivity.
Defined.

(** ** The response envelope *)



Section FormatterProofs.
Variable json_dumps : value -> string.



End FormatterProofs.


(** * Further properties of the code *)

(** ** Streamed chunks *)

Lemma first_tool_message_entry (ms : list value) (e : value) :
  first_tool_message ms = Ok (Some e) -> exists c, e = tool_entry c.
Proof.
  induction ms as [|m ms IH]; cbn [first_tool_message]; [discriminate|].
  destruct (subscript m "role") as [role|err]; [|discriminate].
  destruct (eq_str role "tool"); [|exact IH].
  destruct (subscript m "content") as [c|err]; [|discriminate].
  intros He. injection He as <-. now exists c.
Qed.

Lemma delta_tool_message_entry (delta : ChatCompletionChunk.delta_t) (e : value) :
  delta_tool_message delta = Ok (Some e) -> exists c, e = tool_entry c.
Proof.
  unfold delta_tool_message.
  destruct (ChatCompletionChunk.context delta) as [context|]; [|discriminate].
  destruct (py_get context "messages") as [found|err]; [|discriminate].
  destruct (truthy found); [|discriminate].
  destruct (subscript context "messages") as [ms|err]; [|discriminate].
  destruct (py_iter ms) as [l|err]; [|discriminate].
  apply first_tool_message_entry.
Qed.

(** X1: whatever [format_stream_response] returns is either the empty dict
    or an envelope with the six keys whose [choices[0].messages] holds
    exactly one entry, of role ["tool"] or ["assistant"]. *)
Theorem format_stream_response_single_message
    (chatCompletionChunk : ChatCompletionChunk.t)
    (history_metadata message_uuid v : value) :
  format_stream_response chatCompletionChunk history_metadata message_uuid = Ok v ->
  v = VDict []
  \/ exists envelope entry,
       v = VDict envelope
       /\ dict_keys envelope =
            ["id"; "model"; "created"; "object"; "choices"; "history_metadata"]
       /\ dict_get "choices" envelope =
            Some (VList [VDict [("messages", VList [entry])]])
       /\ (subscript entry "role" = Ok (VStr "tool")
           \/ subscript entry "role" = Ok (VStr "assistant")).
Proof.
  unfold format_stream_response.
  destruct (ChatCompletionChunk.choices chatCompletionChunk) as [|choice0 others];
    [intros Hv; injection Hv as <-; now left|].
  destruct (ChatCompletionChunk.delta choice0) as [delta|];
    [|intros Hv; injection Hv as <-; now left].
  destruct (delta_tool_message delta) as [[messageObj|]|err] eqn:Htool;
    [| |discriminate].
  - apply delta_tool_message_entry in Htool. destruct Htool as (c & ->).
    intros Hv. injection Hv as <-. right. eexists. exists (tool_entry c).
    repeat split. now left.
  - destruct (eq_str (ChatCompletionChunk.role delta) "assistant");
      [destruct (ChatCompletionChunk.context delta) as [context|]|].
    + intros Hv. injection Hv as <-. right. do 2 eexists.
      repeat split. now right.
    + destruct (truthy (ChatCompletionChunk.content delta));
        intros Hv; injection Hv as <-; [right|now left].
      do 2 eexists. repeat split. now right.
    + destruct (truthy (ChatCompletionChunk.content delta));
        intros Hv; injection Hv as <-; [right|now left].
      do 2 eexists. repeat split. now right.
Qed.

Lemma format_stream_response_single_message_witness :
  exists envelope entry,
    format_stream_response sample_chunk VNone (VStr "m-1") = Ok (VDict envelope)
    /\ dict_get "choices" envelope =
         Some (VList [VDict [("messages", VList [entry])]]).
Proof.
  destruct (format_stream_response_single_message sample_chunk VNone (VStr "m-1")
              _ eq_refl) as [Hempty|(envelope & entry & Hv & _ & Hchoices & _)].
  - discriminate Hempty.
  - exists envelope, entry. split; [|exact Hchoices].
    rewrite <- Hv. reflexivity.
Defined.

Lemma first_tool_message_skips (skipped rest : list value) (m c : value) :
  Forall (fun x => exists r, subscript x "role" = Ok r /\ eq_str r "tool" = false)
         skipped ->
  subscript m "role" = Ok (VStr "tool") ->
  subscript m "content" = Ok c ->
  first_tool_message (skipped ++ m :: rest) = Ok (Some (tool_entry c)).
Proof.
  intros Hskip Hrole Hcontent.
  induction Hskip as [|x skipped (r & Hr & Hne) _ IH]; cbn [app first_tool_message].
  - now rewrite Hrole, Hcontent.
  - rewrite Hr, Hne. exact IH.
Qed.

(** X2: when the context of the delta lists messages, the chunk is answered
    with the first message of role ["tool"] alone: the messages before it
    are skipped, and the later tool messages, the role and the content of
    the delta are not looked at. *)
Theorem format_stream_response_first_tool
    (chatCompletionChunk : ChatCompletionChunk.t)
    (history_metadata message_uuid : value)
    (choice0 : ChatCompletionChunk.choice) (others : list ChatCompletionChunk.choice)
    (delta : ChatCompletionChunk.delta_t) (context : list (string * value))
    (skipped rest : list value) (m c : value) :
  ChatCompletionChunk.choices chatCompletionChunk = choice0 :: others ->
  ChatCompletionChunk.delta choice0 = Some delta ->
  ChatCompletionChunk.context delta = Some (VDict context) ->
  dict_get "messages" context = Some (VList (skipped ++ m :: rest)) ->
  Forall (fun x => exists r, subscript x "role" = Ok r /\ eq_str r "tool" = false)
         skipped ->
  subscript m "role" = Ok (VStr "tool") ->
  subscript m "content" = Ok c ->
  exists envelope,
    format_stream_response chatCompletionChunk history_metadata message_uuid
      = Ok (VDict envelope)
    /\ dict_get "choices" envelope =
         Some (VList [VDict [("messages", VList [tool_entry c])]]).
Proof.
  intros Hchoices Hdelta Hcontext Hmessages Hskip Hrole Hcontent.
  unfold format_stream_response. rewrite Hchoices, Hdelta.
  unfold delta_tool_message. rewrite Hcontext.
  cbn [py_get subscript]. rewrite Hmessages.
  assert (Ht : truthy (VList (skipped ++ m :: rest)) = true)
    by (destruct skipped; reflexivity).
  rewrite Ht. cbn [py_iter].
  rewrite (first_tool_message_skips skipped rest m c Hskip Hrole Hcontent).
  eexists. split; reflexivity.
Qed.

Lemma format_stream_response_first_tool_witness :
  exists envelope,
    format_stream_response sample_chunk VNone VNone = Ok (VDict envelope)
    /\ dict_get "choices" envelope =
         Some (VList [VDict [("messages", VList [tool_entry (VStr "{}")])]]).
Proof.
  apply (format_stream_response_first_tool sample_chunk VNone VNone
           _ [] _ [("messages",
                    VList [VDict [("role", VStr "user"); ("content", VStr "x")];
                           VDict [("role", VStr "tool"); ("content", VStr "{}")];
                           VDict [("role", VStr "tool"); ("content", VStr "[]")]])]
           [VDict [("role", VStr "user"); ("content", VStr "x")]]
           [VDict [("role", VStr "tool"); ("content", VStr "[]")]]
           (VDict [("role", VStr "tool"); ("content", VStr "{}")]) (VStr "{}")
           eq_refl eq_refl eq_refl eq_refl).
  - constructor; [|constructor]. eexists. split; reflexivity.
  - reflexivity.
  - reflexivity.
Defined.

(** X3: a chunk without choices, or whose first delta is null, is answered
    with the empty dict; a delta without a context is answered with the
    empty dict exactly when its content is falsy, and with one assistant
    entry holding the content otherwise. *)
Theorem format_stream_response_empty
    (chatCompletionChunk : ChatCompletionChunk.t)
    (history_metadata message_uuid : value) :
  let run :=
    format_stream_response chatCompletionChunk history_metadata message_uuid in
  (ChatCompletionChunk.choices chatCompletionChunk = [] -> run = Ok (VDict []))
  /\ (forall choice0 others,
        ChatCompletionChunk.choices chatCompletionChunk = choice0 :: others ->
        ChatCompletionChunk.delta choice0 = None -> run = Ok (VDict []))
  /\ (forall choice0 others delta,
        ChatCompletionChunk.choices chatCompletionChunk = choice0 :: others ->
        ChatCompletionChunk.delta choice0 = Some delta ->
        ChatCompletionChunk.context delta = None ->
        (run = Ok (VDict []) <-> truthy (ChatCompletionChunk.content delta) = false)
        /\ (truthy (ChatCompletionChunk.content delta) = true ->
            exists envelope,
              run = Ok (VDict envelope)
              /\ dict_get "choices" envelope =
                   Some (VList [VDict [("messages",
                      VList [assistant_entry (ChatCompletionChunk.content delta)])]]))).
Proof.
  intros run. unfold run, format_stream_response. split; [|split].
  - intros ->. reflexivity.
  - intros choice0 others -> ->. reflexivity.
  - intros choice0 others delta -> -> Hcontext.
    unfold delta_tool_message. rewrite Hcontext.
    destruct (eq_str (ChatCompletionChunk.role delta) "assistant");
      destruct (truthy (ChatCompletionChunk.content delta)); split;
      try (split; [discriminate|discriminate]);
      try (split; reflexivity);
      try discriminate;
      intros _; eexists; split; reflexivity.
Qed.

Lemma format_stream_response_empty_witness :
  format_stream_response
    (ChatCompletionChunk.Make (VStr "chatcmpl-1") (VStr "gpt-4") (VInt 1700000000)
       (VStr "chat.completion.chunk")
       [ChatCompletionChunk.Choice
          (Some (ChatCompletionChunk.Delta VNone VNone None))])
    VNone VNone = Ok (VDict []).
Proof.
  destruct (format_stream_response_empty
              (ChatCompletionChunk.Make (VStr "chatcmpl-1") (VStr "gpt-4")
                 (VInt 1700000000) (VStr "chat.completion.chunk")
                 [ChatCompletionChunk.Choice
                    (Some (ChatCompletionChunk.Delta VNone VNone None))])
              VNone VNone) as (_ & _ & Hdelta).
  destruct (Hdelta _ _ _ eq_refl eq_refl eq_refl) as ((_ & Hfalsy) & _).
  apply Hfalsy. reflexivity.
Defined.

(** X4: a delta of role ["assistant"] that has a context without messages
    is answered with one assistant entry that carries the context under
    [context], and no [content]. *)
Theorem format_stream_response_assistant_context
    (chatCompletionChunk : ChatCompletionChunk.t)
    (history_metadata message_uuid : value)
    (choice0 : ChatCompletionChunk.choice) (others : list ChatCompletionChunk.choice)
    (delta : ChatCompletionChunk.delta_t) (context : list (string * value)) :
  ChatCompletionChunk.choices chatCompletionChunk = choice0 :: others ->
  ChatCompletionChunk.delta choice0 = Some delta ->
  ChatCompletionChunk.context delta = Some (VDict context) ->
  dict_get "messages" context = None ->
  ChatCompletionChunk.role delta = VStr "assistant" ->
  exists envelope,
    format_stream_response chatCompletionChunk history_metadata message_uuid
      = Ok (VDict envelope)
    /\ dict_get "choices" envelope =
         Some (VList [VDict [("messages",
            VList [VDict [("role", VStr "assistant");
                          ("context", VDict context)]])]]).
Proof.
  intros Hchoices Hdelta Hcontext Hmessages Hrole.
  unfold format_stream_response. rewrite Hchoices, Hdelta.
  unfold delta_tool_message. rewrite Hcontext, Hrole.
  cbn [py_get]. rewrite Hmessages. cbn [truthy].
  eexists. split; reflexivity.
Qed.

Lemma format_stream_response_assistant_context_witness :
  exists envelope,
    format_stream_response
      (ChatCompletionChunk.Make (VStr "chatcmpl-1") (VStr "gpt-4") (VInt 1700000000)
         (VStr "chat.completion.chunk")
         [ChatCompletionChunk.Choice
            (Some (ChatCompletionChunk.Delta (VStr "assistant") (VStr "ignored")
                     (Some (VDict [("intent", VStr "[]")]))))])
      VNone VNone = Ok (VDict envelope)
    /\ dict_get "choices" envelope =
         Some (VList [VDict [("messages",
            VList [VDict [("role", VStr "assistant");
                          ("context", VDict [("intent", VStr "[]")])]])]]).
Proof.
  apply (format_stream_response_assistant_context
           (ChatCompletionChunk.Make (VStr "chatcmpl-1") (VStr "gpt-4")
              (VInt 1700000000) (VStr "chat.completion.chunk")
              [ChatCompletionChunk.Choice
                 (Some (ChatCompletionChunk.Delta (VStr "assistant") (VStr "ignored")
                          (Some (VDict [("intent", VStr "[]")]))))])
           VNone VNone _ [] _
           [("intent", VStr "[]")] eq_refl eq_refl eq_refl eq_refl eq_refl).
Defined.

(** ** Full completions *)

Section FormatterEdges.
Variable json_dumps : value -> string.

(** X5: [format_non_streaming_response] returns the empty dict exactly when
    the completion has no choices or its first choice has a null
    message. *)
Theorem format_non_streaming_response_empty
    (chatCompletion : ChatCompletion.t) (history_metadata message_uuid : value) :
  format_non_streaming_response json_dumps chatCompletion
    history_metadata message_uuid = Ok (VDict [])
  <-> (ChatCompletion.choices chatCompletion = []
       \/ exists choice0 others,
            ChatCompletion.choices chatCompletion = choice0 :: others
            /\ ChatCompletion.message choice0 = None).
Proof.
  unfold format_non_streaming_response.
  destruct (ChatCompletion.choices chatCompletion) as [|choice0 others].
  - split; [now left|reflexivity].
  - destruct (ChatCompletion.message choice0) as [message|] eqn:Hm.
    + split.
      * destruct (context_messages json_dumps message); discriminate.
      * intros [Hnil|(c & o & Hc & Hnone)]; [discriminate|].
        injection Hc as <- <-. congruence.
    + split; [|reflexivity]. intros _. right. now exists choice0, others.
Qed.

Lemma append_tool_messages_filter (ms : list value) :
  forall messages r,
    append_tool_messages ms messages = Ok r ->
    exists tools,
      r = messages ++ tools
      /\ Forall2 (fun m e => exists c, subscript m "content" = Ok c /\ e = tool_entry c)
                 (List.filter has_role_tool ms) tools.
Proof.
  induction ms as [|m ms IH]; intros messages r Hr; cbn [append_tool_messages] in Hr.
  - injection Hr as <-. exists []. split; [now rewrite app_nil_r|constructor].
  - cbn [List.filter]. unfold has_role_tool at 1.
    destruct (subscript m "role") as [role|e]; [|discriminate].
    destruct (eq_str role "tool").
    + destruct (subscript m "content") as [c|e] eqn:Hc; [|discriminate].
      apply IH in Hr. destruct Hr as (tools & -> & Htools).
      exists (tool_entry c :: tools). split; [now rewrite <- app_assoc|].
      constructor; [now exists c|assumption].
    + apply IH in Hr. exact Hr.
Qed.

(** X6: when the context of the message lists messages, the envelope holds
    one tool entry for each listed message of role ["tool"], in their
    order and with their content, then the assistant entry; the listed
    messages of any other role are left out. *)
Theorem format_non_streaming_response_tools
    (chatCompletion : ChatCompletion.t) (history_metadata message_uuid v : value)
    (choice0 : ChatCompletion.choice) (others : list ChatCompletion.choice)
    (message : ChatCompletion.message_t) (context : list (string * value))
    (m0 : value) (ms : list value) :
  ChatCompletion.choices chatCompletion = choice0 :: others ->
  ChatCompletion.message choice0 = Some message ->
  ChatCompletion.context message = Some (VDict context) ->
  dict_get "messages" context = Some (VList (m0 :: ms)) ->
  format_non_streaming_response json_dumps chatCompletion
    history_metadata message_uuid = Ok v ->
  exists tools,
    subscript v "choices" =
      Ok (VList [VDict [("messages",
         VList (tools ++ [assistant_entry (ChatCompletion.content message)]))]])
    /\ Forall2 (fun m e => exists c, subscript m "content" = Ok c /\ e = tool_entry c)
               (List.filter has_role_tool (m0 :: ms)) tools.
Proof.
  intros Hchoices Hmessage Hcontext Hmessages.
  unfold format_non_streaming_response. rewrite Hchoices, Hmessage.
  unfold context_messages. rewrite Hcontext.
  cbn [py_get subscript]. rewrite Hmessages. cbn [truthy py_iter].
  destruct (append_tool_messages (m0 :: ms) []) as [tools|e] eqn:Ht; [|discriminate].
  intros Hv. injection Hv as <-.
  apply append_tool_messages_filter in Ht. destruct Ht as (tools' & -> & Hf).
  exists tools'. split; [reflexivity|exact Hf].
Qed.

(** X7: when the message has a context without messages (none, or an empty
    list), the envelope holds one tool entry whose content is the JSON text
    of the whole context, then the assistant entry. *)
Theorem format_non_streaming_response_context_dump
    (chatCompletion : ChatCompletion.t) (history_metadata message_uuid : value)
    (choice0 : ChatCompletion.choice) (others : list ChatCompletion.choice)
    (message : ChatCompletion.message_t) (context : list (string * value)) :
  ChatCompletion.choices chatCompletion = choice0 :: others ->
  ChatCompletion.message choice0 = Some message ->
  ChatCompletion.context message = Some (VDict context) ->
  (dict_get "messages" context = None
   \/ exists found, dict_get "messages" context = Some found /\ truthy found = false) ->
  exists envelope,
    format_non_streaming_response json_dumps chatCompletion
      history_metadata message_uuid = Ok (VDict envelope)
    /\ dict_get "choices" envelope =
         Some (VList [VDict [("messages",
            VList [tool_entry (VStr (json_dumps (VDict context)));
                   assistant_entry (ChatCompletion.content message)])]]).
Proof.
  intros Hchoices Hmessage Hcontext Hnone.
  unfold format_non_streaming_response. rewrite Hchoices, Hmessage.
  unfold context_messages. rewrite Hcontext. cbn [py_get].
  destruct Hnone as [->|(found & -> & Hf)].
  - cbn [truthy]. eexists. split; reflexivity.
  - rewrite Hf. eexists. split; reflexivity.
Qed.

(** X8: when the message has a context attribute that is not a dict, the
    formatter raises [AttributeError]. *)
Theorem format_non_streaming_response_bad_context
    (chatCompletion : ChatCompletion.t) (history_metadata message_uuid : value)
    (choice0 : ChatCompletion.choice) (others : list ChatCompletion.choice)
    (message : ChatCompletion.message_t) (context : value) :
  ChatCompletion.choices chatCompletion = choice0 :: others ->
  ChatCompletion.message choice0 = Some message ->
  ChatCompletion.context message = Some context ->
  (forall d, context <> VDict d) ->
  format_non_streaming_response json_dumps chatCompletion
    history_metadata message_uuid = Raise AttributeError.
Proof.
  intros Hchoices Hmessage Hcontext Hnot.
  unfold format_non_streaming_response. rewrite Hchoices, Hmessage.
  unfold context_messages. rewrite Hcontext.
  destruct context as [| | | | |d]; try reflexivity.
  now destruct (Hnot d).
Qed.
End FormatterEdges.

Lemma format_non_streaming_response_tools_witness :
  exists tools,
    subscript
      (VDict [("id", VStr "chatcmpl-1"); ("model", VStr "gpt-4");
              ("created", VInt 1700000000); ("object", VStr "chat.completion");
              ("choices", VList [VDict [("messages",
                 VList [tool_entry (VStr "{}"); tool_entry (VStr "[]");
                        assistant_entry (VStr "Hello.")])]]);
              ("history_metadata", VNone)]) "choices" =
      Ok (VList [VDict [("messages", VList (tools ++ [assistant_entry (VStr "Hello.")]))]])
    /\ length tools = 2.
Proof.
  destruct (format_non_streaming_response_tools sample_json_dumps sample_completion
              VNone VNone _ _ [] _ _ _ _ eq_refl eq_refl eq_refl eq_refl eq_refl)
    as (tools & Hc & Hf).
  exists tools. split; [exact Hc|].
  apply Forall2_length in Hf. rewrite <- Hf. reflexivity.
Defined.

Lemma format_non_streaming_response_context_dump_witness :
  exists envelope,
    format_non_streaming_response sample_json_dumps
      (ChatCompletion.Make (VStr "chatcmpl-1") (VStr "gpt-4") (VInt 1700000000)
         (VStr "chat.completion")
         [ChatCompletion.Choice (Some (ChatCompletion.Message (VStr "Hello.")
            (Some (VDict [("intent", VStr "greeting")]))))])
      VNone VNone = Ok (VDict envelope)
    /\ dict_get "choices" envelope =
         Some (VList [VDict [("messages",
            VList [tool_entry (VStr (sample_json_dumps
                                       (VDict [("intent", VStr "greeting")])));
                   assistant_entry (VStr "Hello.")])]]).
Proof.
  apply (format_non_streaming_response_context_dump sample_json_dumps
           (ChatCompletion.Make (VStr "chatcmpl-1") (VStr "gpt-4") (VInt 1700000000)
              (VStr "chat.completion")
              [ChatCompletion.Choice (Some (ChatCompletion.Message (VStr "Hello.")
                 (Some (VDict [("intent", VStr "greeting")]))))])
           VNone VNone _ [] _ [("intent", VStr "greeting")]
           eq_refl eq_refl eq_refl (or_introl eq_refl)).
Defined.

Lemma format_non_streaming_response_bad_context_witness :
  format_non_streaming_response sample_json_dumps
    (ChatCompletion.Make (VStr "chatcmpl-1") (VStr "gpt-4") (VInt 1700000000)
       (VStr "chat.completion")
       [ChatCompletion.Choice (Some (ChatCompletion.Message (VStr "Hello.")
          (Some VNone)))])
    VNone VNone = Raise AttributeError.
Proof.
  apply (format_non_streaming_response_bad_context sample_json_dumps
           (ChatCompletion.Make (VStr "chatcmpl-1") (VStr "gpt-4") (VInt 1700000000)
              (VStr "chat.completion")
              [ChatCompletion.Choice (Some (ChatCompletion.Message (VStr "Hello.")
                 (Some VNone)))])
           VNone VNone _ [] _ VNone eq_refl eq_refl eq_refl).
  discriminate.
Defined.

(** X9: both formatters put [message_uuid] under [id] when it is truthy and
    the id of the completion otherwise (so for [None] and for the empty
    string), and copy [model], [created], [object] and [history_metadata]
    into every envelope they return. *)
Theorem envelope_fields (json_dumps : value -> string)
    (chatCompletion : ChatCompletion.t) (chatCompletionChunk : ChatCompletionChunk.t)
    (history_metadata message_uuid : value) :
  (forall choice0 others message v,
      ChatCompletion.choices chatCompletion = choice0 :: others ->
      ChatCompletion.message choice0 = Some message ->
      format_non_streaming_response json_dumps chatCompletion
        history_metadata message_uuid = Ok v ->
      subscript v "id" = Ok (if truthy message_uuid then message_uuid
                             else ChatCompletion.id chatCompletion)
      /\ subscript v "model" = Ok (ChatCompletion.model chatCompletion)
      /\ subscript v "created" = Ok (ChatCompletion.created chatCompletion)
      /\ subscript v "object" = Ok (ChatCompletion.object chatCompletion)
      /\ subscript v "history_metadata" = Ok history_metadata)
  /\ (forall v,
      format_stream_response chatCompletionChunk history_metadata message_uuid = Ok v ->
      v <> VDict [] ->
      subscript v "id" = Ok (if truthy message_uuid then message_uuid
                             else ChatCompletionChunk.id chatCompletionChunk)
      /\ subscript v "model" = Ok (ChatCompletionChunk.model chatCompletionChunk)
      /\ subscript v "created" = Ok (ChatCompletionChunk.created chatCompletionChunk)
      /\ subscript v "object" = Ok (ChatCompletionChunk.object chatCompletionChunk)
      /\ subscript v "history_metadata" = Ok history_metadata).
Proof.
  split.
  - intros choice0 others message v Hchoices Hmessage.
    unfold format_non_streaming_response. rewrite Hchoices, Hmessage.
    destruct (context_messages json_dumps message); [|discriminate].
    intros Hv. injection Hv as <-. repeat split.
  - intros v. unfold format_stream_response.
    destruct (ChatCompletionChunk.choices chatCompletionChunk) as [|choice0 others];
      [intros Hv; injection Hv as <-; congruence|].
    destruct (ChatCompletionChunk.delta choice0) as [delta|];
      [|intros Hv; injection Hv as <-; congruence].
    destruct (delta_tool_message delta) as [[messageObj|]|err]; [| |discriminate].
    + intros Hv _. injection Hv as <-. repeat split.
    + destruct (eq_str (ChatCompletionChunk.role delta) "assistant");
        destruct (ChatCompletionChunk.context delta);
        destruct (truthy (ChatCompletionChunk.content delta));
        intros Hv Hne; injection Hv as <-; try congruence; repeat split.
Qed.

Lemma envelope_fields_witness :
  subscript
    (VDict [("id", VStr "chatcmpl-1"); ("model", VStr "gpt-4");
            ("created", VInt 1700000000); ("object", VStr "chat.completion");
            ("choices", VList [VDict [("messages",
               VList [tool_entry (VStr "{}"); tool_entry (VStr "[]");
                      assistant_entry (VStr "Hello.")])]]);
            ("history_metadata", VNone)]) "id" = Ok (VStr "chatcmpl-1")
  /\ exists v,
       format_stream_response sample_chunk VNone (VStr "m-1") = Ok v
       /\ subscript v "id" = Ok (VStr "m-1").
Proof.
  destruct (envelope_fields sample_json_dumps sample_completion sample_chunk
              VNone (VStr EmptyString)) as (Hfull & _).
  destruct (envelope_fields sample_json_dumps sample_completion sample_chunk
              VNone (VStr "m-1")) as (_ & Hchunk).
  split.
  - destruct (Hfull _ [] _ _ eq_refl eq_refl eq_refl) as (Hid & _). exact Hid.
  - eexists. split; [reflexivity|].
    destruct (Hchunk _ eq_refl) as (Hid & _); [discriminate|exact Hid].
Defined.

(** ** Column lists, continued *)

Lemma contains_append (ch : ascii) (a b : string) :
  contains ch (a +:+ b) = contains ch a || contains ch b.
Proof.
  induction a as [|c a IH]; [reflexivity|].
  change (contains ch (String c (a +:+ b))
          = contains ch (String c a) || contains ch b).
  cbn [contains]. destruct (Ascii.eqb c ch); [reflexivity|exact IH].
Qed.

Section SplitJoin.
Variable sep : ascii.

Lemma split_append_free (a b : string) :
  contains sep a = false ->
  split sep (a +:+ String sep b) = a :: split sep b.
Proof.
  induction a as [|c a IH]; intros Ha.
  - change (split sep (String sep b) = EmptyString :: split sep b).
    cbn [split]. now rewrite Ascii.eqb_refl.
  - cbn [contains] in Ha.
    change (split sep (String c (a +:+ String sep b)) = String c a :: split sep b).
    cbn [split]. destruct (Ascii.eqb c sep); [discriminate|].
    now rewrite (IH Ha).
Qed.

Lemma split_free (a : string) : contains sep a = false -> split sep a = [a].
Proof.
  induction a as [|c a IH]; intros Ha; [reflexivity|].
  cbn [contains] in Ha. cbn [split].
  destruct (Ascii.eqb c sep); [discriminate|]. now rewrite (IH Ha).
Qed.

Lemma split_join (l : list string) :
  l <> [] ->
  Forall (fun seg => contains sep seg = false) l ->
  split sep (join sep l) = l.
Proof.
  intros Hne Hl. induction Hl as [|x l Hx Hl IH]; [congruence|].
  destruct l as [|y l].
  - now apply split_free.
  - rewrite join_cons, split_append_free by assumption.
    f_equal. apply IH. discriminate.
Qed.

Lemma length_split (s : string) :
  length (split sep s) = S (count_char sep s).
Proof.
  induction s as [|c s IH]; [reflexivity|].
  cbn [split count_char]. destruct (Ascii.eqb c sep).
  - cbn [length]. now rewrite IH.
  - destruct (split sep s) as [|h t] eqn:Hs; [now apply split_nonempty in Hs|].
    cbn [length] in IH |- *. exact IH.
Qed.

Lemma contains_join_other (other : ascii) (l : list string) :
  other <> sep ->
  Forall (fun seg => contains other seg = false) l ->
  contains other (join sep l) = false.
Proof.
  intros Hne Hl. induction Hl as [|x l Hx Hl IH]; [reflexivity|].
  destruct l as [|y l]; [exact Hx|].
  rewrite join_cons, contains_append, Hx.
  cbn [orb contains]. destruct (Ascii.eqb sep other) eqn:E.
  - apply Ascii.eqb_eq in E. congruence.
  - exact IH.
Qed.
End SplitJoin.

(** X10: [parse_multi_columns] undoes a join: two or more columns without
    a ['|'] joined by ['|'] are parsed back, commas included, and one or
    more columns without [','] and ['|'] joined by [','] are parsed
    back. *)
Theorem parse_multi_columns_join (columns : list string) :
  (2 <= length columns ->
   Forall (fun seg => contains "|" seg = false) columns ->
   parse_multi_columns (join "|" columns) = columns)
  /\ (columns <> [] ->
      Forall (fun seg => contains "," seg = false) columns ->
      Forall (fun seg => contains "|" seg = false) columns ->
      parse_multi_columns (join "," columns) = columns).
Proof.
  unfold parse_multi_columns. split.
  - intros Hlen Hfree.
    destruct columns as [|x [|y l]]; cbn in Hlen; try lia.
    assert (Hc : contains "|" (join "|" (x :: y :: l)) = true).
    { rewrite join_cons, contains_append. cbn [contains].
      rewrite Ascii.eqb_refl. apply orb_true_r. }
    rewrite Hc. apply split_join; [discriminate|assumption].
  - intros Hne Hcomma Hbar.
    rewrite (contains_join_other "," "|" columns) by (assumption || discriminate).
    now apply split_join.
Qed.

Lemma parse_multi_columns_join_witness :
  parse_multi_columns (join "|" ["title,subtitle"; "body"]) = ["title,subtitle"; "body"]
  /\ parse_multi_columns (join "," ["title"]) = ["title"].
Proof.
  split.
  - apply (proj1 (parse_multi_columns_join ["title,subtitle"; "body"]));
      [cbn; lia|repeat constructor].
  - apply (proj2 (parse_multi_columns_join ["title"]));
      [discriminate|repeat constructor|repeat constructor].
Defined.

(** X11: [parse_multi_columns] returns one column more than the string has
    separators: ['|'] when there is one, [','] otherwise.  The empty string
    gives one empty column. *)
Theorem parse_multi_columns_length (columns : string) :
  length (parse_multi_columns columns) =
    S (if contains "|" columns then count_char "|" columns
       else count_char "," columns).
Proof.
  unfold parse_multi_columns.
  destruct (contains "|" columns); apply length_split.
Qed.

(** ** Group memberships, continued *)

Section DirectoryFailures.
Variable requests_get : value -> value -> result response.
Variable userToken : string.

Lemma fetch_until_failure (pages : list (list value)) :
  forall (fuel : nat) (nextLink endpoint : value),
    (if truthy nextLink then nextLink else VStr graph_endpoint) = endpoint ->
    served_until_failure requests_get userToken endpoint pages ->
    length pages < fuel ->
    fetchUserGroups requests_get fuel userToken nextLink
    = Some (VList (concat pages)).
Proof.
  induction pages as [|groups rest IH]; intros fuel nextLink endpoint He Hs Hf;
    (destruct fuel as [|fuel]; [cbn in Hf; lia|]); cbn [fetchUserGroups];
    rewrite He.
  - cbn [served_until_failure] in Hs.
    destruct Hs as [(e & ->)|(r & -> & Hr)]; [reflexivity|].
    unfold fetch_page.
    destruct (Z.eqb (status_code r) 200) eqn:E; [|reflexivity].
    apply Z.eqb_eq in E. contradiction.
  - destruct Hs as (txt & body & link & Hreq & Hval & Hlink & Htruthy & Hrest).
    rewrite Hreq. unfold fetch_page.
    cbn [status_code json negb Z.eqb Pos.eqb py_in subscript].
    rewrite Hlink.
    rewrite (IH fuel link link); [| now rewrite Htruthy | exact Hrest
                                 | cbn in Hf; lia].
    rewrite Hval. reflexivity.
Qed.
End DirectoryFailures.



(** ** The filter string *)



Lemma group_ids_missing (objs : list value) (obj : value) :
  In obj objs ->
  (forall v, subscript obj "id" <> Ok v) ->
  exists e, group_ids objs = Raise e.
Proof.
  intros Hin Hmissing. induction objs as [|o objs IH]; [destruct Hin|].
  cbn [group_ids].
  destruct (subscript o "id") as [i|e] eqn:Ho; [|now exists e].
  destruct Hin as [->|Hin]; [now destruct (Hmissing i)|].
  destruct (IH Hin) as (e & ->). now exists e.
Qed.

Section FilterStringProofs.
Variable requests_get : value -> value -> result response.
Variable column : option string.


(** X14: when the request to the directory fails, [generateFilterString]
    still returns a filter: the one with the empty list of groups. *)
Theorem generateFilterString_failure (userToken : string) (fuel : nat) :
  served_until_failure requests_get userToken (VStr graph_endpoint) [] ->
  generateFilterString requests_get column (S fuel) userToken =
    Some (Ok (column_text column +:+ "/any(g:search.in(g, ''))")).
Proof.
  intros Hs. unfold generateFilterString.
  rewrite (fetch_until_failure requests_get userToken [] (S fuel) VNone
             (VStr graph_endpoint) eq_refl Hs) by (cbn; lia).
  reflexivity.
Qed.

(** X15: [generateFilterString] raises when one of the groups
    [fetchUserGroups] returned has no [id]: the exception of the lookup is
    not caught. *)
Theorem generateFilterString_missing_id (userToken : string) (fuel : nat)
    (objs : list value) (obj : value) :
  fetchUserGroups requests_get fuel userToken VNone = Some (VList objs) ->
  In obj objs ->
  (forall v, subscript obj "id" <> Ok v) ->
  exists e, generateFilterString requests_get column fuel userToken = Some (Raise e).
Proof.
  intros Hfetch Hin Hmissing. unfold generateFilterString.
  rewrite Hfetch. cbn [py_iter].
  destruct (group_ids_missing objs obj Hin Hmissing) as (e & ->).
  now exists e.
Qed.
End FilterStringProofs.


Lemma generateFilterString_failure_witness :
  generateFilterString failing_directory None 1 "token"
  = Some (Ok "None/any(g:search.in(g, ''))").
Proof.
  apply (generateFilterString_failure failing_directory None "token" 0).
  right. eexists. split; [reflexivity|]. discriminate.
Defined.

Lemma generateFilterString_missing_id_witness :
  exists e,
    generateFilterString nameless_directory (Some "group_ids") 1 "token"
    = Some (Raise e).
Proof.
  apply (generateFilterString_missing_id nameless_directory (Some "group_ids")
           "token" 1 [VDict [("name", VStr "g")]] (VDict [("name", VStr "g")])
           eq_refl).
  - now left.
  - discriminate.
Defined.

(** ** The NDJSON stream *)

(** X16: [format_as_ndjson] yields one line per event, the JSON text of the
    event followed by a newline, for as long as the stream gives events;
    when the stream raises, it yields the JSON text of an [error] object,
    without a newline, and nothing after it. *)
Theorem format_as_ndjson_lines (json_dumps : value -> string)
    (str_error : exn -> string) (events : list value) (error : exn)
    (rest : list (result value)) :
  format_as_ndjson json_dumps str_error (map Ok events)
    = map (fun event => json_dumps event +:+ newline) events
  /\ format_as_ndjson json_dumps str_error (map Ok events ++ Raise error :: rest)
     = map (fun event => json_dumps event +:+ newline) events
       ++ [json_dumps (VDict [("error", VStr (str_error error))])].
Proof.
  induction events as [|event events (IH1 & IH2)]; [split; reflexivity|].
  cbn [map app format_as_ndjson]. rewrite IH1, IH2. split; reflexivity.
Qed.

(** ** Checking the client *)

(** X17: [ensure] answers [True] exactly when the three clients are set and
    both reads succeed, never raises, and does not read the container when
    the read of the database has failed. *)
Theorem ensure_checks (cosmosdb_client database_client container_client : bool)
    (cosmosdb_endpoint database_name container_name : string)
    (database_read container_read : result value) :
  let run := ensure cosmosdb_client database_client container_client
               cosmosdb_endpoint database_name container_name
               database_read container_read in
  (fst (fst run) = true
   <-> cosmosdb_client = true /\ database_client = true /\ container_client = true
       /\ (exists info, database_read = Ok info)
       /\ (exists info, container_read = Ok info))
  /\ (In ContainerRead (snd run) -> exists info, database_read = Ok info)
  /\ (fst (fst run) = true ->
      snd (fst run) = "CosmosDB client initialized successfully").
Proof.
  intros run. unfold run, ensure.
  destruct cosmosdb_client, database_client, container_client,
           database_read as [dinfo|de], container_read as [cinfo|ce];
    cbn [negb orb fst snd];
    (split; [split; [intros Hok|intros (H1 & H2 & H3 & (i1 & Hd) & (i2 & Hc))]
            |split; [intros Hin|intros Hok]]);
    try discriminate; try reflexivity;
    try (repeat split; eauto; fail);
    try (cbn [In] in Hin; intuition discriminate).
Qed.

Lemma ensure_checks_witness :
  fst (ensure true true true "https://account.documents.azure.com" "db" "conversations"
         (Ok VNone) (Ok VNone))
  = (true, "CosmosDB client initialized successfully").
Proof.
  destruct (ensure_checks true true true "https://account.documents.azure.com"
              "db" "conversations" (Ok VNone) (Ok VNone)) as (Hok & _ & Hmsg).
  assert (H : fst (fst (ensure true true true "https://account.documents.azure.com"
                          "db" "conversations" (Ok VNone) (Ok VNone))) = true).
  { apply Hok. repeat split; eauto. }
  specialize (Hmsg H). clear Hok.
  destruct (ensure _ _ _ _ _ _ _ _) as [[ok msg] probes].
  cbn [fst snd] in *. now subst.
Defined.

(** ** Messages, continued *)

Section MessageEdges.
Context {C : Type} `{ContainerClient C}.
Variable self : CosmosConversationClient.

(** X18: when [input_message] has no [role] or no [content],
    [create_message] raises the [KeyError] before anything is sent: the
    container receives no call and is left as it was. *)
Theorem create_message_missing_key (w : world C)
    (uuid conversation_id user_id input_message : value) (e : exn) :
  let run := create_message self uuid conversation_id user_id input_message w in
  (subscript input_message "role" = Raise e
   \/ exists role, subscript input_message "role" = Ok role
                   /\ subscript input_message "content" = Raise e) ->
  fst run = Raise e
  /\ calls (snd run) = calls w
  /\ container (snd run) = container w.
Proof.
  intros run Hmissing. unfold run, create_message. run_monad.
  destruct Hmissing as [->|(role & -> & ->)]; repeat split.
Qed.

(** X19: when the response to the upsert of the message is falsy,
    [create_message] returns [False] and stops: the conversation is neither
    queried nor updated. *)
Theorem create_message_falsy_response (w : world C)
    (uuid conversation_id user_id input_message role content resp : value) (s1 : C) :
  let message :=
    VDict (message_document self uuid conversation_id user_id role content
                            (clock w (ticks w)) (clock w (S (ticks w)))) in
  let run := create_message self uuid conversation_id user_id input_message w in
  subscript input_message "role" = Ok role ->
  subscript input_message "content" = Ok content ->
  upsert_item message (container w) = (Ok resp, s1) ->
  truthy resp = false ->
  fst run = Ok (VBool false)
  /\ calls (snd run) = calls w ++ [UpsertItem message]
  /\ container (snd run) = s1.
Proof.
  intros message run Hrole Hcontent Hup Hresp.
  unfold run, create_message. run_monad. rewrite Hrole, Hcontent.
  fold message. rewrite Hup, Hresp. repeat split.
Qed.

Lemma create_message_found_run (w : world C)
    (uuid conversation_id user_id input_message role content resp : value)
    (conversation : list (string * value)) (others : list value) (s1 s2 s3 : C)
    (r2 : result value) :
  let message :=
    VDict (message_document self uuid conversation_id user_id role content
                            (clock w (ticks w)) (clock w (S (ticks w)))) in
  let parameters := VList [
    VDict [("name", VStr "@conversationId"); ("value", conversation_id)];
    VDict [("name", VStr "@userId"); ("value", user_id)] ] in
  let conversation' :=
    VDict (dict_set "updatedAt" (VStr (isoformat (clock w (ticks w)))) conversation) in
  subscript input_message "role" = Ok role ->
  subscript input_message "content" = Ok content ->
  upsert_item message (container w) = (Ok resp, s1) ->
  truthy resp = true ->
  query_items get_conversation_query parameters s1
    = (Ok (VDict conversation :: others), s2) ->
  conversation <> [] ->
  upsert_item conversation' s2 = (r2, s3) ->
  create_message self uuid conversation_id user_id input_message w =
    (match r2 with Ok _ => Ok resp | Raise e => Raise e end,
     World s3 (clock w) (S (S (ticks w))) (uuid_source w) (drawn w)
           (calls w ++ [UpsertItem message;
                        QueryItems get_conversation_query parameters;
                        UpsertItem conversation'])).
Proof.
  intros message parameters conversation' Hrole Hcontent Hup Hresp Hq Hne Hup2.
  assert (Ht : truthy (VDict conversation) = true)
    by (destruct conversation; [congruence|reflexivity]).
  unfold create_message, get_conversation, upsert_conversation.
  run_monad. rewrite Hrole, Hcontent.
  fold message. rewrite Hup, Hresp. fields.
  fold parameters. rewrite Hq, Ht. fields.
  cbn [negb setitem].
  assert (Hc : subscript message "createdAt"
               = Ok (VStr (isoformat (clock w (ticks w)))))
    by apply message_document_createdAt.
  rewrite Hc. fields. fold conversation'.
  rewrite Hup2. rewrite <- !app_assoc. cbn [app].
  destruct r2 as [resp2|e]; [|reflexivity].
  destruct (truthy resp2); reflexivity.
Qed.

(** X20: once the message is upserted and its conversation found,
    [create_message] returns the response to the upsert of the message
    whatever the response to the upsert of the conversation is, falsy
    included; only an exception of that second upsert is passed on. *)
Theorem create_message_returns_message_response (w : world C)
    (uuid conversation_id user_id input_message role content resp : value)
    (conversation : list (string * value)) (others : list value) (s1 s2 s3 : C)
    (r2 : result value) :
  let message :=
    VDict (message_document self uuid conversation_id user_id role content
                            (clock w (ticks w)) (clock w (S (ticks w)))) in
  let parameters := VList [
    VDict [("name", VStr "@conversationId"); ("value", conversation_id)];
    VDict [("name", VStr "@userId"); ("value", user_id)] ] in
  let run := create_message self uuid conversation_id user_id input_message w in
  subscript input_message "role" = Ok role ->
  subscript input_message "content" = Ok content ->
  upsert_item message (container w) = (Ok resp, s1) ->
  truthy resp = true ->
  query_items get_conversation_query parameters s1
    = (Ok (VDict conversation :: others), s2) ->
  conversation <> [] ->
  upsert_item
    (VDict (dict_set "updatedAt" (VStr (isoformat (clock w (ticks w)))) conversation))
    s2 = (r2, s3) ->
  fst run = match r2 with Ok _ => Ok resp | Raise e => Raise e end
  /\ container (snd run) = s3.
Proof.
  intros message parameters run Hrole Hcontent Hup Hresp Hq Hne Hup2.
  unfold run.
  rewrite (create_message_found_run w uuid conversation_id user_id input_message
             role content resp conversation others s1 s2 s3 r2
             Hrole Hcontent Hup Hresp Hq Hne Hup2).
  split; reflexivity.
Qed.

(** X21: the document [create_message] upserts has the fields [id],
    [type], [userId], [createdAt], [updatedAt], [conversationId], [role]
    and [content], and a [feedback] field, holding the empty string, exactly
    when message feedback is enabled; its two time stamps are two
    successive readings of the clock. *)
Theorem create_message_document (w : world C)
    (uuid conversation_id user_id input_message role content : value) :
  let run := create_message self uuid conversation_id user_id input_message w in
  subscript input_message "role" = Ok role ->
  subscript input_message "content" = Ok content ->
  exists message more,
    calls (snd run) = calls w ++ UpsertItem (VDict message) :: more
    /\ dict_keys message =
         ["id"; "type"; "userId"; "createdAt"; "updatedAt"; "conversationId";
          "role"; "content"]
         ++ (if enable_message_feedback self then ["feedback"] else [])
    /\ dict_get "id" message = Some uuid
    /\ dict_get "type" message = Some (VStr "message")
    /\ dict_get "userId" message = Some user_id
    /\ dict_get "createdAt" message = Some (VStr (isoformat (clock w (ticks w))))
    /\ dict_get "updatedAt" message = Some (VStr (isoformat (clock w (S (ticks w)))))
    /\ dict_get "conversationId" message = Some conversation_id
    /\ dict_get "role" message = Some role
    /\ dict_get "content" message = Some content
    /\ dict_get "feedback" message =
         (if enable_message_feedback self then Some (VStr EmptyString) else None).
Proof.
  intros run Hrole Hcontent.
  exists (message_document self uuid conversation_id user_id role content
            (clock w (ticks w)) (clock w (S (ticks w)))).
  assert (Hcalls : exists more,
    calls (snd run) =
      calls w ++ UpsertItem (VDict (message_document self uuid conversation_id
                   user_id role content (clock w (ticks w)) (clock w (S (ticks w)))))
              :: more).
  { unfold run, create_message, get_conversation, upsert_conversation.
    run_monad. rewrite Hrole, Hcontent.
    rewrite message_document_createdAt.
    destruct (upsert_item _ (container w)) as [[resp|e] s1]; fields;
      [|eexists; reflexivity].
    destruct (truthy resp); fields; [|eexists; reflexivity].
    destruct (query_items _ _ s1) as [[rows|e] s2]; fields;
      [|eexists; rewrite <- app_assoc; reflexivity].
    assert (Hdone : forall (U : call) (cs : list call),
              exists more, (calls w ++ [U]) ++ cs = calls w ++ U :: more).
    { intros U cs. exists cs. now rewrite <- app_assoc. }
    destruct rows as [|conversation rows]; fields.
    - cbn [truthy negb]. apply Hdone.
    - destruct (truthy conversation); cbn [negb]; fields; [|apply Hdone].
      destruct (setitem conversation "updatedAt" _) as [conversation'|e]; fields;
        [|apply Hdone].
      destruct (upsert_item conversation' s2) as [[resp2|e] s3]; fields.
      + destruct (truthy resp2); fields; rewrite <- app_assoc; apply Hdone.
      + rewrite <- app_assoc. apply Hdone. }
  destruct Hcalls as (more & Hcalls). exists more.
  split; [exact Hcalls|].
  unfold message_document. destruct (enable_message_feedback self);
    repeat split; reflexivity.
Qed.
End MessageEdges.

Lemma create_message_missing_key_witness :
  let run := @create_message _ (memory_client point_engine) sample_self
               (VStr "m1") (VStr "c1") (VStr "u1")
               (VDict [("role", VStr "user")]) sample_world in
  fst run = Raise (KeyError "content") /\ container (snd run) = sample_store.
Proof.
  destruct (@create_message_missing_key _ (memory_client point_engine) sample_self
              sample_world (VStr "m1") (VStr "c1") (VStr "u1")
              (VDict [("role", VStr "user")]) (KeyError "content"))
    as (Hr & _ & Hc).
  - right. exists (VStr "user"). split; reflexivity.
  - split; [exact Hr|exact Hc].
Defined.

Lemma create_message_falsy_response_witness :
  let run := @create_message _ silent_client sample_self
               (VStr "m1") (VStr "c1") (VStr "u1") sample_input silent_world in
  fst run = Ok (VBool false) /\ length (calls (snd run)) = 1.
Proof.
  destruct (@create_message_falsy_response _ silent_client sample_self silent_world
              (VStr "m1") (VStr "c1") (VStr "u1") sample_input
              (VStr "user") (VStr "and then?") (VDict []) tt
              eq_refl eq_refl eq_refl eq_refl) as (Hr & Hc & _).
  split; [exact Hr|]. cbv zeta. rewrite Hc. reflexivity.
Defined.

Lemma create_message_returns_message_response_witness :
  exists message,
    fst (@create_message _ (memory_client point_engine) sample_self
           (VStr "m1") (VStr "c1") (VStr "u1") sample_input sample_world)
    = Ok (VDict message)
    /\ dict_get "id" message = Some (VStr "m1").
Proof.
  pose (message := VDict (message_document sample_self (VStr "m1") (VStr "c1")
                            (VStr "u1") (VStr "user") (VStr "and then?")
                            (sample_clock 0) (sample_clock 1))).
  pose (conversation := [("id", VStr "c1"); ("type", VStr "conversation");
                         ("createdAt", VStr "2024-01-01T00:00:00");
                         ("updatedAt", VStr "2024-01-01T00:00:00");
                         ("userId", VStr "u1"); ("title", VStr "hello")]).
  pose (conversation' :=
          VDict (dict_set "updatedAt" (VStr (isoformat (sample_clock 0))) conversation)).
  destruct (@create_message_returns_message_response _ (memory_client point_engine)
              sample_self sample_world (VStr "m1") (VStr "c1") (VStr "u1")
              sample_input (VStr "user") (VStr "and then?") message conversation []
              (<[("u1", "m1") := message]> sample_store)
              (<[("u1", "m1") := message]> sample_store)
              (<[("u1", "c1") := conversation']>
                 (<[("u1", "m1") := message]> sample_store))
              (Ok conversation')
              eq_refl eq_refl eq_refl eq_refl) as (Hr & _).
  - vm_compute. reflexivity.
  - discriminate.
  - reflexivity.
  - exists (message_document sample_self (VStr "m1") (VStr "c1")
              (VStr "u1") (VStr "user") (VStr "and then?")
              (sample_clock 0) (sample_clock 1)).
    split; [exact Hr|reflexivity].
Defined.

Lemma create_message_document_witness :
  exists message more,
    calls (snd (@create_message _ (memory_client point_engine) sample_self
                  (VStr "m1") (VStr "c1") (VStr "u1") sample_input sample_world))
    = UpsertItem (VDict message) :: more
    /\ dict_get "feedback" message = Some (VStr EmptyString)
    /\ dict_get "createdAt" message = Some (VStr "2024-01-02T03:04:00").
Proof.
  destruct (@create_message_document _ (memory_client point_engine) sample_self
              sample_world (VStr "m1") (VStr "c1") (VStr "u1") sample_input
              (VStr "user") (VStr "and then?") eq_refl eq_refl)
    as (message & more & Hcalls & _ & _ & _ & _ & Hcreated & _ & _ & _ & _ & Hfeedback).
  exists message, more. split; [exact Hcalls|]. split; [exact Hfeedback|exact Hcreated].
Defined.

(** ** Conversations and their messages, on any container *)

Section ClientEdges.
Context {C : Type} `{ContainerClient C}.

(** X22: [delete_conversation] passes on the exception of the read (a
    conversation that is not found is not reported by [True]) and deletes
    nothing then; it returns [True] without deleting when the read gives a
    falsy document; otherwise it deletes and returns what the delete
    returns. *)
Theorem delete_conversation_outcomes (w : world C)
    (user_id conversation_id : value) (r : result value) (s1 : C) :
  let run := delete_conversation user_id conversation_id w in
  read_item conversation_id user_id (container w) = (r, s1) ->
  match r with
  | Raise e =>
      fst run = Raise e
      /\ calls (snd run) = calls w ++ [ReadItem conversation_id user_id]
  | Ok conversation =>
      if truthy conversation then
        fst run = fst (delete_item conversation_id user_id s1)
        /\ calls (snd run) =
             calls w ++ [ReadItem conversation_id user_id;
                         DeleteItem conversation_id user_id]
      else
        fst run = Ok (VBool true)
        /\ calls (snd run) = calls w ++ [ReadItem conversation_id user_id]
  end.
Proof.
  intros run Hread. unfold run, delete_conversation. run_monad. rewrite Hread.
  destruct r as [conversation|e]; [|split; reflexivity].
  destruct (truthy conversation); fields; [|split; reflexivity].
  destruct (delete_item conversation_id user_id s1) as [[resp|e] s2]; fields;
    split; try reflexivity; now rewrite <- app_assoc.
Qed.

Lemma delete_each_calls (user_id : value) (messages : list value) :
  forall (response_list rs : list value) (w w' : world C),
    delete_each user_id messages response_list w = (Ok rs, w') ->
    exists ids,
      Forall2 (fun m i => subscript m "id" = Ok i) messages ids
      /\ calls w' = calls w ++ map (fun i => DeleteItem i user_id) ids
      /\ length rs = length response_list + length messages.
Proof.
  induction messages as [|m rest IH]; intros response_list rs w w' Hrun.
  - cbn [delete_each] in Hrun. unfold ret in Hrun. injection Hrun as <- <-.
    exists []. split; [constructor|]. split; [now rewrite app_nil_r|cbn; lia].
  - cbn [delete_each] in Hrun. revert Hrun. run_monad.
    destruct (subscript m "id") as [item|e] eqn:Eid; [|discriminate].
    destruct (delete_item item user_id (container w)) as [[resp|e] s1]; fields;
      [|discriminate].
    intros Hrun. apply IH in Hrun. fields.
    destruct Hrun as (ids & Hids & Hcalls & Hlen). cbn [calls] in Hcalls.
    exists (item :: ids). split; [now constructor|].
    split; [rewrite Hcalls, <- app_assoc; reflexivity|].
    rewrite Hlen, length_app. cbn [length]. lia.
Qed.

(** X23: when the conversation has no messages, [delete_messages] returns
    [None], not an empty list, after the one query. *)
Theorem delete_messages_none (w : world C) (conversation_id user_id : value)
    (s1 : C) :
  let parameters := VList [
    VDict [("name", VStr "@conversationId"); ("value", conversation_id)];
    VDict [("name", VStr "@userId"); ("value", user_id)] ] in
  let run := delete_messages conversation_id user_id w in
  query_items get_messages_query parameters (container w) = (Ok [], s1) ->
  fst run = Ok VNone
  /\ calls (snd run) = calls w ++ [QueryItems get_messages_query parameters]
  /\ container (snd run) = s1.
Proof.
  intros parameters run Hq. unfold run, delete_messages, get_messages.
  run_monad. fold parameters. rewrite Hq. repeat split.
Qed.

(** X24: when [delete_messages] returns, it has sent one [delete_item] for
    each message the query returned, in the order of the result, with the
    [id] of the message and the partition key [user_id], and it returns one
    response per message. *)
Theorem delete_messages_calls (w : world C) (conversation_id user_id v : value)
    (m0 : value) (messages : list value) (s1 : C) :
  let parameters := VList [
    VDict [("name", VStr "@conversationId"); ("value", conversation_id)];
    VDict [("name", VStr "@userId"); ("value", user_id)] ] in
  let run := delete_messages conversation_id user_id w in
  query_items get_messages_query parameters (container w)
    = (Ok (m0 :: messages), s1) ->
  fst run = Ok v ->
  exists ids responses,
    Forall2 (fun m i => subscript m "id" = Ok i) (m0 :: messages) ids
    /\ calls (snd run) =
         calls w ++ QueryItems get_messages_query parameters
                 :: map (fun i => DeleteItem i user_id) ids
    /\ v = VList responses
    /\ length responses = S (length messages).
Proof.
  intros parameters run Hq. unfold run, delete_messages, get_messages.
  run_monad. fold parameters. rewrite Hq. fields. cbn [truthy py_iter].
  destruct (delete_each user_id (m0 :: messages) [] _) as [[rs|e] w'] eqn:Hloop;
    fields; [|discriminate].
  intros Hv. injection Hv as <-.
  apply delete_each_calls in Hloop. destruct Hloop as (ids & Hids & Hcalls & Hlen).
  cbn [calls] in Hcalls. exists ids, rs.
  split; [exact Hids|]. split; [now rewrite Hcalls, <- app_assoc|].
  split; [reflexivity|exact Hlen].
Qed.

(** X25: [get_conversation] sends one query, which selects on the id, on
    [c.type='conversation'] and on the user id, with the two parameters
    bound to its arguments; it returns the first row of the result, and
    [None] when there is none. *)
Theorem get_conversation_first_row (w : world C) (user_id conversation_id : value) :
  let query :=
    "SELECT * FROM c where c.id = @conversationId and c.type='conversation' and c.userId = @userId" in
  let parameters := VList [
    VDict [("name", VStr "@conversationId"); ("value", conversation_id)];
    VDict [("name", VStr "@userId"); ("value", user_id)] ] in
  let run := get_conversation user_id conversation_id w in
  calls (snd run) = calls w ++ [QueryItems query parameters]
  /\ (forall rows s1,
        query_items query parameters (container w) = (Ok rows, s1) ->
        fst run = Ok (match rows with [] => VNone | row :: _ => row end)).
Proof.
  intros query parameters run. unfold run, get_conversation. run_monad.
  change get_conversation_query with query. fold parameters.
  destruct (query_items query parameters (container w)) as [[rows|e] s1] eqn:Hq;
    fields.
  - split.
    + destruct rows; reflexivity.
    + intros rows' s1' Hq'. injection Hq' as <- <-. destruct rows; reflexivity.
  - split; [reflexivity|]. intros rows s1' Hq'. discriminate.
Qed.

(** X26: [update_message_feedback] reads the message and upserts it again
    with [feedback] set to the given value and every other field as read,
    and returns the response of the upsert as it is; it upserts nothing
    when the read raises, which it passes on, or gives a falsy document,
    for which it returns [False]. *)
Theorem update_message_feedback_upsert (w : world C)
    (user_id message_id feedback : value) (r : result value) (s1 : C) :
  let run := update_message_feedback user_id message_id feedback w in
  read_item message_id user_id (container w) = (r, s1) ->
  (forall e, r = Raise e ->
     fst run = Raise e
     /\ calls (snd run) = calls w ++ [ReadItem message_id user_id])
  /\ (forall message, r = Ok message -> truthy message = false ->
     fst run = Ok (VBool false)
     /\ calls (snd run) = calls w ++ [ReadItem message_id user_id])
  /\ (forall message, r = Ok (VDict message) -> message <> [] ->
     exists message',
       calls (snd run) =
         calls w ++ [ReadItem message_id user_id; UpsertItem (VDict message')]
       /\ fst run = fst (upsert_item (VDict message') s1)
       /\ dict_get "feedback" message' = Some feedback
       /\ (forall k, k <> "feedback" -> dict_get k message' = dict_get k message)).
Proof.
  intros run Hread. unfold run, update_message_feedback. run_monad. rewrite Hread.
  split; [|split].
  - intros e ->. split; reflexivity.
  - intros message -> ->. split; reflexivity.
  - intros message -> Hne.
    assert (Ht : truthy (VDict message) = true)
      by (destruct message; [congruence|reflexivity]).
    rewrite Ht. cbn [setitem]. fields.
    exists (dict_set "feedback" feedback message).
    destruct (upsert_item _ s1) as [[resp|e] s2]; fields;
      (split; [now rewrite <- app_assoc|]); (split; [reflexivity|]);
      (split; [apply dict_get_set_eq|]); intros k Hk; now apply dict_get_set_ne.
Qed.
End ClientEdges.

Lemma delete_conversation_outcomes_witness :
  let run := @delete_conversation _ (memory_client point_engine)
               (VStr "u1") (VStr "c404") sample_world in
  fst run = Raise CosmosResourceNotFoundError
  /\ calls (snd run) = [ReadItem (VStr "c404") (VStr "u1")].
Proof.
  apply (@delete_conversation_outcomes _ (memory_client point_engine) sample_world
           (VStr "u1") (VStr "c404") (Raise CosmosResourceNotFoundError)
           sample_store).
  vm_compute. reflexivity.
Defined.

Lemma delete_messages_none_witness :
  fst (@delete_messages _ (memory_client point_engine)
         (VStr "c404") (VStr "u1") sample_world) = Ok VNone.
Proof.
  apply (@delete_messages_none _ (memory_client point_engine) sample_world
           (VStr "c404") (VStr "u1") sample_store).
  vm_compute. reflexivity.
Defined.

Lemma delete_messages_calls_witness :
  exists ids responses,
    Forall2 (fun m i => subscript m "id" = Ok i) [sample_message] ids
    /\ calls (snd (@delete_messages _ (memory_client point_engine)
                     (VStr "c1") (VStr "u1") sample_world)) =
         QueryItems get_messages_query
           (VList [VDict [("name", VStr "@conversationId"); ("value", VStr "c1")];
                   VDict [("name", VStr "@userId"); ("value", VStr "u1")]])
         :: map (fun i => DeleteItem i (VStr "u1")) ids
    /\ VList [VNone] = VList responses
    /\ length responses = 1.
Proof.
  apply (@delete_messages_calls _ (memory_client point_engine) sample_world
           (VStr "c1") (VStr "u1") (VList [VNone]) sample_message [] sample_store).
  - vm_compute. reflexivity.
  - vm_compute. reflexivity.
Defined.

Lemma get_conversation_first_row_witness :
  fst (@get_conversation _ (memory_client point_engine)
         (VStr "u1") (VStr "c1") sample_world) = Ok sample_conversation
  /\ fst (@get_conversation _ (memory_client point_engine)
            (VStr "u2") (VStr "c1") sample_world) = Ok VNone.
Proof.
  split.
  - apply (proj2 (@get_conversation_first_row _ (memory_client point_engine)
                    sample_world (VStr "u1") (VStr "c1"))
             [sample_conversation] sample_store).
    vm_compute. reflexivity.
  - apply (proj2 (@get_conversation_first_row _ (memory_client point_engine)
                    sample_world (VStr "u2") (VStr "c1")) [] sample_store).
    vm_compute. reflexivity.
Defined.

Lemma update_message_feedback_upsert_witness :
  exists message',
    calls (snd (@update_message_feedback _ (memory_client point_engine)
                  (VStr "u1") (VStr "m0") (VStr "positive") sample_world)) =
      [ReadItem (VStr "m0") (VStr "u1"); UpsertItem (VDict message')]
    /\ dict_get "feedback" message' = Some (VStr "positive")
    /\ dict_get "content" message' = Some (VStr "hi").
Proof.
  destruct (@update_message_feedback_upsert _ (memory_client point_engine)
              sample_world (VStr "u1") (VStr "m0") (VStr "positive")
              (Ok sample_message) sample_store) as (_ & _ & Hdict).
  - vm_compute. reflexivity.
  - destruct (Hdict _ eq_refl) as (message' & Hcalls & _ & Hfeedback & Hother);
      [discriminate|].
    exists message'. split; [exact Hcalls|]. split; [exact Hfeedback|].
    rewrite Hother by discriminate. reflexivity.
Defined.

(** ** Round trips on the container held in memory *)

Section MemoryRoundTrips.
Variable engine :
  string -> value -> gmap (string * string) value -> result (list value).
Local Abbreviation client := (memory_client engine).

(** X27: on a stored message, [update_message_feedback] returns the
    message with its new feedback, the message read back from the store is
    that document, and no other document changes; on a message that is not
    stored it raises the not-found error of the read and the store is left
    as it was. *)
Theorem update_message_feedback_stored
    (w : world (gmap (string * string) value))
    (user_id message_id : string) (feedback : value) :
  let run := @update_message_feedback _ client (VStr user_id) (VStr message_id)
               feedback w in
  (forall message,
      container w !! (user_id, message_id) = Some (VDict message) ->
      dict_get "userId" message = Some (VStr user_id) ->
      dict_get "id" message = Some (VStr message_id) ->
      exists message',
        fst run = Ok (VDict message')
        /\ container (snd run) !! (user_id, message_id) = Some (VDict message')
        /\ dict_get "feedback" message' = Some feedback
        /\ (forall k, k <> "feedback" -> dict_get k message' = dict_get k message)
        /\ (forall key, key <> (user_id, message_id) ->
              container (snd run) !! key = container w !! key))
  /\ (container w !! (user_id, message_id) = None ->
      fst run = Raise CosmosResourceNotFoundError
      /\ container (snd run) = container w).
Proof.
  intros run. unfold run, update_message_feedback. run_monad.
  cbn [read_item upsert_item memory_client]. unfold mem_read. split.
  - intros message Hstored Huser Hid. rewrite Hstored.
    assert (Ht : truthy (VDict message) = true)
      by (destruct message; [discriminate|reflexivity]).
    rewrite Ht. cbn [setitem]. fields.
    exists (dict_set "feedback" feedback message).
    unfold mem_upsert. cbn [subscript].
    rewrite !dict_get_set_ne by discriminate. rewrite Huser, Hid. fields.
    split; [reflexivity|]. split; [apply lookup_insert_eq|].
    split; [apply dict_get_set_eq|].
    split; [intros k Hk; now apply dict_get_set_ne|].
    intros key Hkey. now apply lookup_insert_ne.
  - intros ->. split; reflexivity.
Qed.

(** X28: a conversation created for a user under a key that was free is
    stored under (user id, new id) and returned; deleting it with the id
    it was given brings the store back to what it was before the
    creation. *)
Theorem create_then_delete_conversation
    (w : world (gmap (string * string) value)) (user_id : string) (title : value) :
  let id := uuid_str (uuid_source w (drawn w)) in
  let created := @create_conversation _ client (VStr user_id) title w in
  let deleted := @delete_conversation _ client (VStr user_id) (VStr id) (snd created) in
  container w !! (user_id, id) = None ->
  exists conversation,
    fst created = Ok conversation
    /\ container (snd created) !! (user_id, id) = Some conversation
    /\ subscript conversation "title" = Ok title
    /\ fst deleted = Ok VNone
    /\ container (snd deleted) = container w.
Proof.
  intros id created deleted Hfree.
  set (conversation := VDict [
    ("id", VStr id); ("type", VStr "conversation");
    ("createdAt", VStr (isoformat (clock w (ticks w))));
    ("updatedAt", VStr (isoformat (clock w (S (ticks w)))));
    ("userId", VStr user_id); ("title", title)]).
  assert (Hcreated : created =
    (Ok conversation,
     World (<[(user_id, id) := conversation]> (container w)) (clock w)
           (S (S (ticks w))) (uuid_source w) (S (drawn w))
           (calls w ++ [UpsertItem conversation]))).
  { unfold created, create_conversation. run_monad. reflexivity. }
  exists conversation. unfold deleted. rewrite Hcreated.
  unfold delete_conversation. run_monad.
  cbn [read_item delete_item memory_client]. unfold mem_read, mem_delete.
  rewrite lookup_insert_eq.
  assert (Ht : truthy conversation = true) by reflexivity.
  rewrite Ht. fields. rewrite lookup_insert_eq. fields.
  repeat (split; [reflexivity|]).
  now apply delete_insert_id.
Qed.

(** X29: when the message is stored and the query finds its conversation,
    stored under its own user id and id, [create_message] leaves both in
    the store: the message as upserted, and the conversation with its
    [updatedAt] moved to the [createdAt] of the message. *)
Theorem create_message_stores_both (self : CosmosConversationClient)
    (w : world (gmap (string * string) value))
    (uuid user_id cuser cid : string)
    (conversation_id input_message role content : value)
    (conversation : list (string * value)) (others : list value) :
  let message :=
    VDict (message_document self (VStr uuid) conversation_id (VStr user_id)
             role content (clock w (ticks w)) (clock w (S (ticks w)))) in
  let parameters := VList [
    VDict [("name", VStr "@conversationId"); ("value", conversation_id)];
    VDict [("name", VStr "@userId"); ("value", VStr user_id)] ] in
  let run := @create_message _ client self (VStr uuid) conversation_id
               (VStr user_id) input_message w in
  subscript input_message "role" = Ok role ->
  subscript input_message "content" = Ok content ->
  engine get_conversation_query parameters
         (<[(user_id, uuid) := message]> (container w))
    = Ok (VDict conversation :: others) ->
  dict_get "userId" conversation = Some (VStr cuser) ->
  dict_get "id" conversation = Some (VStr cid) ->
  (cuser, cid) <> (user_id, uuid) ->
  exists conversation',
    fst run = Ok message
    /\ container (snd run) !! (user_id, uuid) = Some message
    /\ container (snd run) !! (cuser, cid) = Some (VDict conversation')
    /\ dict_get "updatedAt" conversation'
       = Some (VStr (isoformat (clock w (ticks w))))
    /\ (forall k, k <> "updatedAt" ->
          dict_get k conversation' = dict_get k conversation).
Proof.
  intros message parameters run Hrole Hcontent Hq Huser Hid Hkey.
  exists (dict_set "updatedAt" (VStr (isoformat (clock w (ticks w)))) conversation).
  assert (Hup : @upsert_item _ client message (container w)
                = (Ok message, <[(user_id, uuid) := message]> (container w))).
  { unfold message, message_document.
    destruct (enable_message_feedback self); reflexivity. }
  assert (Hup2 : @upsert_item _ client
                   (VDict (dict_set "updatedAt"
                             (VStr (isoformat (clock w (ticks w)))) conversation))
                   (<[(user_id, uuid) := message]> (container w))
                 = (Ok (VDict (dict_set "updatedAt"
                                 (VStr (isoformat (clock w (ticks w)))) conversation)),
                    <[(cuser, cid) :=
                        VDict (dict_set "updatedAt"
                                 (VStr (isoformat (clock w (ticks w)))) conversation)]>
                      (<[(user_id, uuid) := message]> (container w)))).
  { cbn [upsert_item memory_client]. unfold mem_upsert. cbn [subscript].
    rewrite !dict_get_set_ne by discriminate. now rewrite Huser, Hid. }
  assert (Hne : conversation <> []) by (destruct conversation; discriminate).
  assert (Hq' : @query_items _ client get_conversation_query parameters
                  (<[(user_id, uuid) := message]> (container w))
                = (Ok (VDict conversation :: others),
                   <[(user_id, uuid) := message]> (container w))).
  { cbn [query_items memory_client]. unfold mem_query. now rewrite Hq. }
  unfold run.
  rewrite (@create_message_found_run _ client self w
             (VStr uuid) conversation_id (VStr user_id) input_message
             role content message conversation others _ _ _ _
             Hrole Hcontent Hup
             (message_document_truthy self (VStr uuid) conversation_id
                (VStr user_id) role content (clock w (ticks w))
                (clock w (S (ticks w))))
             Hq' Hne Hup2).
  fields.
  split; [reflexivity|].
  split; [rewrite lookup_insert_ne by exact Hkey; apply lookup_insert_eq|].
  split; [apply lookup_insert_eq|].
  split; [apply dict_get_set_eq|].
  intros k Hk. now apply dict_get_set_ne.
Qed.
End MemoryRoundTrips.

Lemma update_message_feedback_stored_witness :
  exists message',
    fst (@update_message_feedback _ (memory_client point_engine)
           (VStr "u1") (VStr "m0") (VStr "negative") sample_world)
    = Ok (VDict message')
    /\ dict_get "feedback" message' = Some (VStr "negative")
    /\ fst (@update_message_feedback _ (memory_client point_engine)
              (VStr "u1") (VStr "m404") (VStr "negative") sample_world)
       = Raise CosmosResourceNotFoundError.
Proof.
  destruct (update_message_feedback_stored point_engine sample_world
              "u1" "m0" (VStr "negative")) as (Hstored & _).
  destruct (update_message_feedback_stored point_engine sample_world
              "u1" "m404" (VStr "negative")) as (_ & Hmissing).
  destruct (Hstored _ ltac:(vm_compute; reflexivity) eq_refl eq_refl)
    as (message' & Hr & _ & Hf & _).
  exists message'. split; [exact Hr|]. split; [exact Hf|].
  apply Hmissing. vm_compute. reflexivity.
Defined.

Lemma create_then_delete_conversation_witness :
  exists conversation,
    fst (@create_conversation _ (memory_client point_engine)
           (VStr "u1") (VStr "new") sample_world) = Ok conversation
    /\ container
         (snd (@delete_conversation _ (memory_client point_engine) (VStr "u1")
                 (VStr "00000000-0000-0000-0000-000000000000")
                 (snd (@create_conversation _ (memory_client point_engine)
                         (VStr "u1") (VStr "new") sample_world))))
       = sample_store.
Proof.
  destruct (create_then_delete_conversation point_engine sample_world "u1" (VStr "new"))
    as (conversation & Hc & _ & _ & _ & Hd).
  - vm_compute. reflexivity.
  - exists conversation. split; [exact Hc|exact Hd].
Defined.

Lemma create_message_stores_both_witness :
  exists conversation',
    container (snd (@create_message _ (memory_client point_engine) sample_self
                      (VStr "m1") (VStr "c1") (VStr "u1") sample_input sample_world))
      !! ("u1", "c1") = Some (VDict conversation')
    /\ dict_get "updatedAt" conversation' = Some (VStr "2024-01-02T03:04:00")
    /\ dict_get "title" conversation' = Some (VStr "hello").
Proof.
  destruct (create_message_stores_both point_engine sample_self sample_world
              "m1" "u1" "u1" "c1" (VStr "c1") sample_input
              (VStr "user") (VStr "and then?")
              [("id", VStr "c1"); ("type", VStr "conversation");
               ("createdAt", VStr "2024-01-01T00:00:00");
               ("updatedAt", VStr "2024-01-01T00:00:00");
               ("userId", VStr "u1"); ("title", VStr "hello")] [])
    as (conversation' & _ & _ & Hc & Hu & Hk).
  - reflexivity.
  - reflexivity.
  - vm_compute. reflexivity.
  - reflexivity.
  - reflexivity.
  - discriminate.
  - exists conversation'. split; [exact Hc|]. split; [exact Hu|].
    rewrite Hk by discriminate. reflexivity.
Defined.

(** ** Malformed directory answers *)

(** X30: when the directory answers 200 with a body that is not a JSON
    object, or with an object that has neither [value] nor
    [@odata.nextLink], [fetchUserGroups] returns the empty list. *)
Theorem fetchUserGroups_malformed_body
    (requests_get : value -> value -> result response) (userToken : string)
    (nextLink body : value) (txt : string) (fuel : nat) :
  let endpoint := if truthy nextLink then nextLink else VStr graph_endpoint in
  let headers := VDict [("Authorization", VStr ("bearer " +:+ userToken))] in
  requests_get endpoint headers = Ok (Response 200 txt (Ok body)) ->
  (forall d, body = VDict d ->
     dict_get "value" d = None /\ dict_get "@odata.nextLink" d = None) ->
  fetchUserGroups requests_get (S fuel) userToken nextLink = Some (VList []).
Proof.
  intros endpoint headers Hreq Hbody.
  cbn [fetchUserGroups]. fold endpoint headers. rewrite Hreq.
  unfold fetch_page. cbn [status_code json negb Z.eqb Pos.eqb].
  destruct body as [| | |s|l|d]; try reflexivity.
  - cbn [py_in]. destruct (index 0 "@odata.nextLink" s); reflexivity.
  - cbn [py_in]. destruct (existsb _ l); reflexivity.
  - destruct (Hbody d eq_refl) as (Hvalue & Hlink).
    cbn [py_in subscript]. now rewrite Hlink, Hvalue.
Qed.

Lemma fetchUserGroups_malformed_body_witness :
  fetchUserGroups
    (fun _ _ => Ok (Response 200 EmptyString (Ok (VDict [("error", VStr "x")]))))
    1 "token" VNone = Some (VList []).
Proof.
  apply (fetchUserGroups_malformed_body
           (fun _ _ => Ok (Response 200 EmptyString (Ok (VDict [("error", VStr "x")]))))
           "token" VNone (VDict [("error", VStr "x")]) EmptyString 0 eq_refl).
  intros d Hd. injection Hd as <-. split; reflexivity.
Defined.
